(** * The report client (my-app/src/App.jsx): request lifecycle and section views

    A shallow embedding of the React component [App] of
    [src/my-app/src/App.jsx] (the array-of-steps revision, lines 1-325):
    the [handleGenerate] handler, the four section views and the tab
    badges, over the fragment of JavaScript they use.

    - A JavaScript string is the list of its UTF-16 code units.
    - A value is what [JSON.parse] can return, plus [undefined]; numbers
      are the integers a double holds exactly (row counts, lengths and
      indices), printed as decimal numerals.
    - An expression that can raise returns a [result].
    - A view is the content its JSX puts on the page, slot by slot; class
      names and icons are left out. What React does with the elements a
      view returns is not part of the model, save the coercion of a [key]
      to a string, which happens while the view runs. *)

From Stdlib Require Import List NArith ZArith Bool Ascii String Lia.
From Equations Require Import Equations.
Import ListNotations.

Set Implicit Arguments.

(* ===================================================================== *)
(** ** JavaScript strings *)
(* ===================================================================== *)

Module JsString.

(** One UTF-16 code unit. *)
Definition code_unit := N.

Definition jsstring := list code_unit.

Definition ch (a : ascii) : code_unit := N_of_ascii a.

(** A source literal. *)
Definition lit (s : string) : jsstring := map ch (list_ascii_of_string s).

Definition eqb (s t : jsstring) : bool :=
  if list_eq_dec N.eq_dec s t then true else false.

Definition digit (d : nat) : code_unit := (48 + N.of_nat d)%N.

Fixpoint digits (u : Decimal.uint) : jsstring :=
  match u with
  | Decimal.Nil => []
  | Decimal.D0 u => digit 0 :: digits u
  | Decimal.D1 u => digit 1 :: digits u
  | Decimal.D2 u => digit 2 :: digits u
  | Decimal.D3 u => digit 3 :: digits u
  | Decimal.D4 u => digit 4 :: digits u
  | Decimal.D5 u => digit 5 :: digits u
  | Decimal.D6 u => digit 6 :: digits u
  | Decimal.D7 u => digit 7 :: digits u
  | Decimal.D8 u => digit 8 :: digits u
  | Decimal.D9 u => digit 9 :: digits u
  end.

(** [String(n)] for a natural number. *)
Definition of_nat (n : nat) : jsstring := digits (Nat.to_uint n).

(** [String(z)] for an integer. *)
Definition of_Z (z : Z) : jsstring :=
  match Z.to_int z with
  | Decimal.Pos u => digits u
  | Decimal.Neg u => ch "-" :: digits u
  end.

(** WhiteSpace and LineTerminator code points, the ones
    [String.prototype.trim] removes. *)
Definition is_line_terminator (c : code_unit) : bool :=
  (N.eqb c 10 || N.eqb c 13 || N.eqb c 8232 || N.eqb c 8233)%N.

Definition is_white_space (c : code_unit) : bool :=
  (N.eqb c 9 || N.eqb c 11 || N.eqb c 12 || N.eqb c 32 || N.eqb c 160
   || N.eqb c 5760 || (N.leb 8192 c && N.leb c 8202)
   || N.eqb c 8239 || N.eqb c 8287 || N.eqb c 12288 || N.eqb c 65279)%N.

Definition is_trimmed (c : code_unit) : bool :=
  is_white_space c || is_line_terminator c.

Fixpoint trim_start (s : jsstring) : jsstring :=
  match s with
  | c :: s' => if is_trimmed c then trim_start s' else s
  | [] => []
  end.

Definition trim_end (s : jsstring) : jsstring :=
  rev (trim_start (rev s)).

(** [s.trim()] *)
Definition trim (s : jsstring) : jsstring := trim_end (trim_start s).

End JsString.

Import JsString.


(* ===================================================================== *)
(** ** JavaScript values and the operations of the source on them *)
(* ===================================================================== *)

Module Js.

Unset Elimination Schemes.

(** What [JSON.parse] returns, and [undefined]. An object is the list of
    its own properties; a name is looked up from the front. *)
Inductive value : Type :=
| JUndefined
| JNull
| JBool (b : bool)
| JNum (z : Z)
| JStr (s : jsstring)
| JArr (items : list value)
| JObj (fields : list (jsstring * value)).

Set Elimination Schemes.

(** Exceptions: [new Error(message)] of the source, and the errors the
    engine raises itself (messages in V8's wording). *)
Inductive exn : Type :=
| Error (message : jsstring)
| TypeError (message : jsstring)
| SyntaxError (message : jsstring).

Definition message (e : exn) : jsstring :=
  match e with
  | Error m | TypeError m | SyntaxError m => m
  end.

Inductive result (A : Type) : Type :=
| Ok (a : A)
| Throw (e : exn).
Arguments Ok {A} a.
Arguments Throw {A} e.

Definition bind {A B} (r : result A) (k : A -> result B) : result B :=
  match r with
  | Ok a => k a
  | Throw e => Throw e
  end.

Declare Scope js_scope.
Delimit Scope js_scope with js.
Notation "x <- e ;; k" := (bind e (fun x => k))
  (at level 61, e at next level, right associativity) : js_scope.
Open Scope js_scope.

Fixpoint mapM {A B} (f : A -> result B) (l : list A) : result (list B) :=
  match l with
  | [] => Ok []
  | a :: l' => b <- f a ;; bs <- mapM f l' ;; Ok (b :: bs)
  end.

(** [array.map((item, index) => ...)]: the callback sees each element with
    its index, in order. *)
Fixpoint mapM_index {A B} (f : A -> nat -> result B) (l : list A) (index : nat)
  : result (list B) :=
  match l with
  | [] => Ok []
  | a :: l' => b <- f a index ;; bs <- mapM_index f l' (S index) ;; Ok (b :: bs)
  end.

(** ToBoolean *)
Definition truthy (v : value) : bool :=
  match v with
  | JUndefined | JNull => false
  | JBool b => b
  | JNum z => negb (Z.eqb z 0)
  | JStr s => match s with [] => false | _ => true end
  | JArr _ | JObj _ => true
  end.

(** [a || b] and [a && b] return one of their operands. *)
Definition or_else (a b : value) : value := if truthy a then a else b.

Definition nullish (v : value) : bool :=
  match v with
  | JUndefined | JNull => true
  | _ => false
  end.

Fixpoint own (fields : list (jsstring * value)) (name : jsstring) : option value :=
  match fields with
  | [] => None
  | (k, v) :: rest => if JsString.eqb k name then Some v else own rest name
  end.

Definition has_own (fields : list (jsstring * value)) (name : jsstring) : bool :=
  match own fields name with
  | Some _ => true
  | None => false
  end.

(** [v.name] on a value that is neither [null] nor [undefined], for the
    names the source reads. None of them is defined on a prototype, save
    [length] on arrays and strings; a miss is [undefined]. *)
Definition prop (v : value) (name : jsstring) : value :=
  match v with
  | JObj fields =>
      match own fields name with
      | Some x => x
      | None => JUndefined
      end
  | JArr items =>
      if JsString.eqb name (lit "length") then JNum (Z.of_nat (List.length items))
      else JUndefined
  | JStr s =>
      if JsString.eqb name (lit "length") then JNum (Z.of_nat (List.length s))
      else JUndefined
  | _ => JUndefined
  end.

Definition type_name (v : value) : jsstring :=
  match v with
  | JNull => lit "null"
  | _ => lit "undefined"
  end.

Definition cannot_read (v : value) (name : jsstring) : exn :=
  TypeError (lit "Cannot read properties of " ++ type_name v
             ++ lit " (reading '" ++ name ++ lit "')").

Definition not_a_function (expr : string) : exn :=
  TypeError (lit expr ++ lit " is not a function").

Definition cannot_convert : exn :=
  TypeError (lit "Cannot convert object to primitive value").

(** [v.name] *)
Definition get (v : value) (name : jsstring) : result value :=
  if nullish v then Throw (cannot_read v name) else Ok (prop v name).

(** [v?.name] *)
Definition opt_get (v : value) (name : jsstring) : value :=
  if nullish v then JUndefined else prop v name.

(** ToString. A parsed object has no callable property: one that carries
    an own [toString] cannot be converted, any other prints through
    [Object.prototype.toString]; an array prints through [join]. A number
    is given as its decimal numeral, which is the text JavaScript prints
    for the safe integers only (from 1e21 on it prints an exponent, and a
    fraction is no [JNum]): whether ToString returns or raises does not
    depend on it, and a statement that reads the text of a number is made
    for safe integers ([Raises.exact_text]). *)
Fixpoint to_string (v : value) : result jsstring :=
  match v with
  | JUndefined => Ok (lit "undefined")
  | JNull => Ok (lit "null")
  | JBool b => Ok (if b then lit "true" else lit "false")
  | JNum z => Ok (of_Z z)
  | JStr s => Ok s
  | JArr items =>
      (fix join (l : list value) : result jsstring :=
         match l with
         | [] => Ok []
         | x :: rest =>
             e <- match x with
                  | JUndefined | JNull => Ok []
                  | _ => to_string x
                  end ;;
             match rest with
             | [] => Ok e
             | _ => r <- join rest ;; Ok (e ++ lit "," ++ r)
             end
         end) items
  | JObj fields =>
      if has_own fields (lit "toString") then Throw cannot_convert
      else Ok (lit "[object Object]")
  end.

(** [`${a}...`] and [s + v] with a string on the left: ToString of the
    operand, appended. *)
Definition append_text (s : jsstring) (v : value) : result jsstring :=
  t <- to_string v ;; Ok (s ++ t).

End Js.

Import Js.

(* ===================================================================== *)
(** ** The pattern [/!\[.*?\]\(.*?\)/g] of [SynthesisView] *)
(* ===================================================================== *)

Module ImagePattern.

(** A matcher reads a prefix of the text and answers the number of code
    units it matched; the rest of the pattern is its continuation. *)
Definition matcher := jsstring -> option nat.

Definition accept : matcher := fun _ => Some 0.

(** One literal character, then [k]. *)
Definition expect (c : code_unit) (k : matcher) : matcher :=
  fun s =>
    match s with
    | c' :: s' => if N.eqb c' c then option_map S (k s') else None
    | [] => None
    end.

(** [.*?] then [k]: the shortest run of characters that are not line
    terminators after which [k] matches; a longer run is tried only when
    [k] fails. *)
Fixpoint lazy_dots (k : matcher) (s : jsstring) : option nat :=
  match k s with
  | Some n => Some n
  | None =>
      match s with
      | c :: s' =>
          if is_line_terminator c then None
          else option_map S (lazy_dots k s')
      | [] => None
      end
  end.

(** The length of the match of [!\[.*?\]\(.*?\)] at the front of the text. *)
Definition match_here : matcher :=
  expect (ch "!") (expect (ch "[")
    (lazy_dots (expect (ch "]") (expect (ch "(")
      (lazy_dots (expect (ch ")") accept)))))).

(** [text.replace(/!\[.*?\]\(.*?\)/g, '')]: from left to right, a match is
    dropped and the search resumes after it; a character at which the
    pattern does not match is kept. The pattern has no empty match. *)
Equations? strip (s : jsstring) : jsstring by wf (List.length s) lt :=
  strip [] := [];
  strip (c :: s') with match_here (c :: s') => {
    | Some (S n) := strip (skipn n s');
    | Some O := c :: strip s';
    | None := c :: strip s' }.
Proof.
  all: simpl; try lia.
  rewrite length_skipn. lia.
Qed.

(** Does the pattern match somewhere in the text? *)
Fixpoint occurs (s : jsstring) : bool :=
  match match_here s with
  | Some _ => true
  | None =>
      match s with
      | _ :: s' => occurs s'
      | [] => false
      end
  end.

(** Does [![] occur in the text? *)
Fixpoint opens_image (s : jsstring) : bool :=
  match s with
  | c :: s' =>
      match s' with
      | d :: _ => (N.eqb c (ch "!") && N.eqb d (ch "[")) || opens_image s'
      | [] => false
      end
  | [] => false
  end.

Definition lacks (c : code_unit) (s : jsstring) : bool :=
  forallb (fun d => negb (N.eqb d c)) s.

Definition one_line (s : jsstring) : bool :=
  forallb (fun d => negb (is_line_terminator d)) s.

(** The image directive [![alt](src)]. *)
Definition directive (alt src : jsstring) : jsstring :=
  lit "![" ++ alt ++ lit "](" ++ src ++ lit ")".

(** [erased s t]: [t] is [s] without some of its directives whose alt text
    and source hold no line terminator; nothing else is touched. *)
Inductive erased : jsstring -> jsstring -> Prop :=
| erased_nil : erased [] []
| erased_keep c s t : erased s t -> erased (c :: s) (c :: t)
| erased_drop alt src s t :
    one_line alt = true -> one_line src = true ->
    erased s t -> erased (directive alt src ++ s) t.

End ImagePattern.

(* ===================================================================== *)
(** ** The component [App] *)
(* ===================================================================== *)

Module App.

(** *** State: the five [useState] cells *)

Inductive tab : Type := ingestion | pandas | rag | synthesis.

Record state : Type := {
  activeTab : tab;
  loading : bool;
  data : value;            (* [null] or the parsed response *)
  error : value;           (* [null] or a message *)
  instructions : jsstring
}.

Definition initial : state :=
  {| activeTab := ingestion; loading := false; data := JNull;
     error := JNull; instructions := [] |}.

Definition setActiveTab (t : tab) (st : state) : state :=
  {| activeTab := t; loading := loading st; data := data st;
     error := error st; instructions := instructions st |}.

Definition setLoading (b : bool) (st : state) : state :=
  {| activeTab := activeTab st; loading := b; data := data st;
     error := error st; instructions := instructions st |}.

Definition setData (d : value) (st : state) : state :=
  {| activeTab := activeTab st; loading := loading st; data := d;
     error := error st; instructions := instructions st |}.

Definition setError (e : value) (st : state) : state :=
  {| activeTab := activeTab st; loading := loading st; data := data st;
     error := e; instructions := instructions st |}.

Definition setInstructions (t : jsstring) (st : state) : state :=
  {| activeTab := activeTab st; loading := loading st; data := data st;
     error := error st; instructions := t |}.

(** *** [handleGenerate] *)

(** The argument of [fetch]. [body] is the object handed to
    [JSON.stringify]. *)
Record request : Type := {
  url : jsstring;
  method : jsstring;
  headers : list (jsstring * jsstring);
  body : value
}.

(** What the two awaited promises settle to: [fetch] or [response.json()]
    rejects, or the body is parsed. *)
Inductive settled : Type :=
| Rejected (e : exn)
| Parsed (result : value).

(** Up to the first [await]: the three setters and the request. *)
Definition start (st : state) : state * request :=
  (setData JNull (setError JNull (setLoading true st)),
   {| url := lit "http://localhost:8000/generate-report";
      method := lit "POST";
      headers := [(lit "Content-Type", lit "application/json")];
      body := JObj [(lit "user_instructions", JStr (trim (instructions st)))] |}).

(** The rest of the [try] block, up to [setData]: the parsed result, or
    what is thrown. *)
Definition awaited (o : settled) : result value :=
  match o with
  | Rejected e => Throw e
  | Parsed result =>
      e <- get result (lit "error") ;;
      if truthy e then m <- to_string e ;; Throw (Error m)
      else Ok result
  end.

(** After the promises settle: [try], [catch], [finally]. *)
Definition resolve (o : settled) (st : state) : state :=
  setLoading false
    match awaited o with
    | Ok result => setActiveTab synthesis (setData result st)
    | Throw err => setError (JStr (message err)) st
    end.

Definition handleGenerate (st : state) (o : settled) : state :=
  resolve o (fst (start st)).

(** The [error] field of a parsed body: an own property of an object. *)
Definition error_field (r : value) : option value :=
  match r with
  | JObj fields => own fields (lit "error")
  | _ => None
  end.

(** The request lifecycle named by the specification, read off the three
    cells the way the layout tests them ([loading], [error &&], [data &&]). *)
Inductive lifecycle : Type :=
| Idle
| Pending
| Succeeded (model : value)
| Failed (msg : value).

Definition lifecycle_of (st : state) : lifecycle :=
  if loading st then Pending
  else if truthy (error st) then Failed (error st)
  else if truthy (data st) then Succeeded (data st)
  else Idle.

(** *** Views *)

(** [cond && <element/>] in child position: the element, or the falsy
    [cond] itself. *)
Inductive guarded (A : Type) : Type :=
| Shown (a : A)
| Hidden (cond : value).
Arguments Shown {A} a.
Arguments Hidden {A} cond.

Definition isArray (v : value) : bool :=
  match v with
  | JArr _ => true
  | _ => false
  end.

Definition elements (v : value) : list value :=
  match v with
  | JArr items => items
  | _ => []
  end.

(** [<span key={c}>{c}</span>]; the key is coerced to a string. *)
Record chip : Type := { chip_key : jsstring; chip_text : value }.

Record ingestion_view : Type := {
  iv_status : value;                 (* data?.status || "Ready" *)
  iv_total_records : value;          (* data?.row_count?.toLocaleString() || 0 *)
  iv_columns : option (list chip);   (* [None]: the chain gave [undefined] *)
  iv_more : guarded (list value)     (* the children of the remainder span *)
}.

Inductive plot : Type :=
| Image (src alt : jsstring)
| NoPlot (text : jsstring).

Record analysis_block : Type := {
  ab_key : nat;
  ab_number : nat;                   (* index + 1 *)
  ab_title : value;                  (* item.section || `Analysis Step ${index + 1}` *)
  ab_task : value;                   (* item.query *)
  ab_code : value;                   (* item.code || "# No code generated" *)
  ab_plot : plot;
  ab_insight : guarded value         (* item.insight && <div>...</div> *)
}.

Inductive pandas_view : Type :=
| NoAnalysis (text : jsstring)
| AnalysisSteps (blocks : list analysis_block).

Record research_block : Type := {
  rb_key : nat;
  rb_number : nat;
  rb_title : value;                  (* item.section || `Research Step ${index + 1}` *)
  rb_question : value;               (* item.query *)
  rb_context : value;                (* item.context || "No context found." *)
  rb_insight : guarded value
}.

Inductive rag_view : Type :=
| NoResearch (text : jsstring)
| ResearchSteps (blocks : list research_block).

(** The text handed to [ReactMarkdown]. *)
Record synthesis_view : Type := { sv_markdown : jsstring }.

Section Engine.

(** [Number.prototype.toLocaleString] depends on the locale of the host. *)
Variable number_toLocaleString : Z -> jsstring.

(** [v.toLocaleString()] on a value that is neither [null] nor [undefined]:
    strings, booleans and objects go through [toString]. *)
Fixpoint toLocaleString (v : value) : result jsstring :=
  match v with
  | JUndefined | JNull => Throw (cannot_read v (lit "toLocaleString"))
  | JBool b => Ok (if b then lit "true" else lit "false")
  | JNum z => Ok (number_toLocaleString z)
  | JStr s => Ok s
  | JArr items =>
      (fix join (l : list value) : result jsstring :=
         match l with
         | [] => Ok []
         | x :: rest =>
             e <- match x with
                  | JUndefined | JNull => Ok []
                  | _ => toLocaleString x
                  end ;;
             match rest with
             | [] => Ok e
             | _ => r <- join rest ;; Ok (e ++ lit "," ++ r)
             end
         end) items
  | JObj fields =>
      if has_own fields (lit "toLocaleString")
      then Throw (not_a_function "data?.row_count?.toLocaleString")
      else if has_own fields (lit "toString")
      then Throw (not_a_function "this.toString")
      else Ok (lit "[object Object]")
  end.

Definition column_chip (c : value) : result chip :=
  k <- to_string c ;; Ok {| chip_key := k; chip_text := c |}.

(** [IngestionView]. The remainder expression is reached only when the
    [slice(...).map(...)] chain before it did not raise, that is with
    [columns] an array, [null] or [undefined]. *)
Definition IngestionView (data : value) : result ingestion_view :=
  let status := or_else (opt_get data (lit "status")) (JStr (lit "Ready")) in
  let row_count := opt_get data (lit "row_count") in
  total <- (if nullish row_count then Ok JUndefined
            else s <- toLocaleString row_count ;; Ok (JStr s)) ;;
  let columns := opt_get data (lit "columns") in
  match columns with
  | JUndefined | JNull =>
      Ok {| iv_status := status;
            iv_total_records := or_else total (JNum 0);
            iv_columns := None;
            iv_more := Hidden (JBool false) |}
  | JArr items =>
      chips <- mapM column_chip (firstn 6 items) ;;
      Ok {| iv_status := status;
            iv_total_records := or_else total (JNum 0);
            iv_columns := Some chips;
            iv_more :=
              if (6 <? Z.of_nat (List.length items))%Z
              then Shown [JStr (lit "+");
                          JNum (Z.of_nat (List.length items) - 6);
                          JStr (lit " more")]
              else Hidden (JBool false) |}
  | JStr _ => Throw (not_a_function "data?.columns?.slice(...).map")
  | _ => Throw (not_a_function "data?.columns?.slice")
  end.

End Engine.

(** [item.insight && <div>...{item.insight}</div>] *)
Definition insight_block (insight : value) : guarded value :=
  if truthy insight then Shown insight else Hidden insight.

(** One step of [PandasAgentView]. *)
Definition analysis_step (item : value) (index : nat) : result analysis_block :=
  section <- get item (lit "section") ;;
  let title :=
    or_else section (JStr (lit "Analysis Step " ++ of_nat (index + 1))) in
  let query := prop item (lit "query") in
  let code := or_else (prop item (lit "code")) (JStr (lit "# No code generated")) in
  let image := prop item (lit "image") in
  pl <- (if truthy image
         then src <- append_text (lit "data:image/png;base64,") image ;;
              alt <- append_text (lit "Plot for ") section ;;
              Ok (Image src alt)
         else Ok (NoPlot (lit "No visualization generated"))) ;;
  Ok {| ab_key := index; ab_number := index + 1; ab_title := title;
        ab_task := query; ab_code := code; ab_plot := pl;
        ab_insight := insight_block (prop item (lit "insight")) |}.

Definition PandasAgentView (data : value) : result pandas_view :=
  if negb (truthy data) || negb (isArray data)
     || Nat.eqb (List.length (elements data)) 0
  then Ok (NoAnalysis (lit "No quantitative analysis performed in this step."))
  else blocks <- mapM_index analysis_step (elements data) 0 ;;
       Ok (AnalysisSteps blocks).

(** One step of [RAGAgentView]. *)
Definition research_step (item : value) (index : nat) : result research_block :=
  section <- get item (lit "section") ;;
  Ok {| rb_key := index; rb_number := index + 1;
        rb_title :=
          or_else section (JStr (lit "Research Step " ++ of_nat (index + 1)));
        rb_question := prop item (lit "query");
        rb_context :=
          or_else (prop item (lit "context")) (JStr (lit "No context found."));
        rb_insight := insight_block (prop item (lit "insight")) |}.

Definition RAGAgentView (data : value) : result rag_view :=
  if negb (truthy data) || negb (isArray data)
     || Nat.eqb (List.length (elements data)) 0
  then Ok (NoResearch (lit "No qualitative research performed in this step."))
  else blocks <- mapM_index research_step (elements data) 0 ;;
       Ok (ResearchSteps blocks).

Definition newline : jsstring := [10%N].

Definition reportHeader : jsstring :=
  lit "# BMW Global Sales Analysis Report (2020-2024)" ++ newline
  ++ lit "> Generated by AI Multi-Agent System" ++ newline ++ newline
  ++ lit "---" ++ newline ++ newline.

Definition pending : jsstring := lit "*Report generation pending...*".

Definition fullMarkdown (data : value) : result jsstring :=
  append_text reportHeader
    (or_else (opt_get data (lit "markdown_content")) (JStr pending)).

Definition SynthesisView (data : value) : result synthesis_view :=
  md <- fullMarkdown data ;;
  Ok {| sv_markdown := ImagePattern.strip md |}.

(** *** Shapes of the result the views can lay out *)

(** A JSON primitive, or [undefined]: what is put on the page as text. *)
Definition primitive (v : value) : bool :=
  match v with
  | JArr _ | JObj _ => false
  | _ => true
  end.

Definition is_record (v : value) : bool :=
  match v with
  | JObj _ => true
  | _ => false
  end.

Definition step_fields : list jsstring :=
  [lit "section"; lit "query"; lit "code"; lit "image"; lit "insight";
   lit "context"].

(** A step item: anything but [null], each of its fields absent or a
    primitive. *)
Definition step_item (item : value) : bool :=
  negb (nullish item)
  && forallb (fun name => primitive (prop item name)) step_fields.

(** A step sequence of such items; a value that is not an array has no
    items. *)
Definition step_sequence (v : value) : bool := forallb step_item (elements v).

(** An ingestion subsection whose [status] and [row_count] are absent or
    primitives and whose [columns] is absent or an array of primitives. *)
Definition ingestion_record (v : value) : bool :=
  primitive (opt_get v (lit "status"))
  && primitive (opt_get v (lit "row_count"))
  && match opt_get v (lit "columns") with
     | JUndefined | JNull => true
     | JArr items => forallb primitive items
     | _ => false
     end.

Definition synthesis_record (v : value) : bool :=
  primitive (opt_get v (lit "markdown_content")).

Definition renderable (model : value) : bool :=
  ingestion_record (prop model (lit "ingestion"))
  && step_sequence (prop model (lit "pandas_agent"))
  && step_sequence (prop model (lit "rag_agent"))
  && synthesis_record (prop model (lit "synthesis")).

(** What each view shows when it has nothing to show. *)
Definition ingestion_default : ingestion_view :=
  {| iv_status := JStr (lit "Ready"); iv_total_records := JNum 0;
     iv_columns := None; iv_more := Hidden (JBool false) |}.

Definition pandas_placeholder : pandas_view :=
  NoAnalysis (lit "No quantitative analysis performed in this step.").

Definition rag_placeholder : rag_view :=
  NoResearch (lit "No qualitative research performed in this step.").

Definition synthesis_pending : synthesis_view :=
  {| sv_markdown := reportHeader ++ pending |}.

(** The text React writes for a primitive child: strings and numbers;
    nothing for [null], [undefined] and booleans. *)
Definition child_text (v : value) : jsstring :=
  match v with
  | JStr s => s
  | JNum z => of_Z z
  | _ => []
  end.

Definition children_text (l : list value) : jsstring :=
  List.concat (map child_text l).

(** *** The layout: error banner, tab counters, main content *)

(** [error && <div>System Error: {error}</div>] *)
Definition error_banner (st : state) : guarded value :=
  if truthy (error st) then Shown (error st) else Hidden (error st).

Definition tab_eqb (a b : tab) : bool :=
  match a, b with
  | ingestion, ingestion | pandas, pandas | rag, rag | synthesis, synthesis => true
  | _, _ => false
  end.

Inductive section_view : Type :=
| IngestionSection (v : ingestion_view)
| PandasSection (v : pandas_view)
| RagSection (v : rag_view)
| SynthesisSection (v : synthesis_view).

Inductive content : Type :=
| Awaiting                       (* "System Ready. Awaiting Instructions." *)
| Working                        (* "Generating Insights" *)
| Results (v : section_view).

Section Layout.

Variable number_toLocaleString : Z -> jsstring.

(** [ToNumber(s) > z] for a string [s]: the numeric literal grammar and
    its rounding belong to the engine. *)
Variable string_gt : jsstring -> Z -> bool.

(** [v > z], with [z] a number literal. *)
Definition gt (v : value) (z : Z) : result bool :=
  match v with
  | JUndefined => Ok false
  | JNull => Ok (z <? 0)%Z
  | JBool b => Ok (z <? (if b then 1 else 0))%Z
  | JNum n => Ok (z <? n)%Z
  | JStr s => Ok (string_gt s z)
  | JArr _ | JObj _ => s <- to_string v ;; Ok (string_gt s z)
  end.

(** [is_tab && data?.agent?.length > 0 && <span>{data.agent.length}</span>] *)
Definition counter (is_tab : bool) (data : value) (agent : jsstring)
  : result (guarded value) :=
  if is_tab then
    let count := opt_get (opt_get data agent) (lit "length") in
    positive <- gt count 0 ;;
    if positive then Ok (Shown count) else Ok (Hidden (JBool false))
  else Ok (Hidden (JBool false)).

(** The two counters after the label of tab [t]. *)
Definition tab_counters (t : tab) (data : value)
  : result (guarded value * guarded value) :=
  p <- counter (tab_eqb t pandas) data (lit "pandas_agent") ;;
  r <- counter (tab_eqb t rag) data (lit "rag_agent") ;;
  Ok (p, r).

Definition main_content (st : state) : result content :=
  if loading st then Ok Working
  else if truthy (data st) then
    match activeTab st with
    | ingestion =>
        v <- IngestionView number_toLocaleString (prop (data st) (lit "ingestion")) ;;
        Ok (Results (IngestionSection v))
    | pandas =>
        v <- PandasAgentView (prop (data st) (lit "pandas_agent")) ;;
        Ok (Results (PandasSection v))
    | rag =>
        v <- RAGAgentView (prop (data st) (lit "rag_agent")) ;;
        Ok (Results (RagSection v))
    | synthesis =>
        v <- SynthesisView (prop (data st) (lit "synthesis")) ;;
        Ok (Results (SynthesisSection v))
    end
  else Ok Awaiting.

End Layout.

End App.

Import App.

(* ===================================================================== *)
(** ** The page in use: events of the layout *)
(* ===================================================================== *)

Module Session.

(** The text of the "Use Sample Prompt" button. *)
Definition samplePrompt : jsstring :=
  lit "Trend & Growth Analysis " ++ newline
  ++ lit "- Analyze the sales trend of Hybrid vehicles over the last 3 years and explain the market shift towards electrification. "
  ++ newline
  ++ lit "- Show me the monthly sales volume for 2023. Identify the peak month and research what marketing events or vehicle launches happened then. "
  ++ newline
  ++ lit "- Compare Year-over-Year growth for SUVs versus Sedans. Why are SUVs trending higher?".

(** What the user and the network do to the page. *)
Inductive event : Type :=
| SelectTab (t : tab)          (* a tab button: setActiveTab(tab.id) *)
| TypeText (text : jsstring)   (* the textarea: setInstructions(e.target.value) *)
| UseSample                    (* the sample button: setInstructions(sample) *)
| ClickGenerate                (* the generate button, disabled={loading} *)
| Settle (o : settled).        (* the promises of the oldest request settle *)

(** The cells of the component and the requests sent and not yet settled. *)
Record page : Type := {
  ui : state;
  in_flight : list request
}.

Definition opened : page := {| ui := initial; in_flight := [] |}.

Definition step (p : page) (e : event) : page :=
  match e with
  | SelectTab t => {| ui := setActiveTab t (ui p); in_flight := in_flight p |}
  | TypeText text =>
      {| ui := setInstructions text (ui p); in_flight := in_flight p |}
  | UseSample =>
      {| ui := setInstructions samplePrompt (ui p); in_flight := in_flight p |}
  | ClickGenerate =>
      if loading (ui p) then p
      else {| ui := fst (start (ui p));
              in_flight := in_flight p ++ [snd (start (ui p))] |}
  | Settle o =>
      match in_flight p with
      | [] => p
      | _ :: rest => {| ui := resolve o (ui p); in_flight := rest |}
      end
  end.

Definition run (events : list event) : page := fold_left step events opened.

(** What holds of the page after every event. *)
Definition consistent (p : page) : Prop :=
  List.length (in_flight p) <= 1
  /\ (loading (ui p) = true <-> in_flight p <> [])
  /\ (loading (ui p) = true -> data (ui p) = JNull /\ error (ui p) = JNull)
  /\ (data (ui p) = JNull \/ error (ui p) = JNull)
  /\ (error (ui p) = JNull \/ exists m, error (ui p) = JStr m)
  /\ (data (ui p) = JNull
      \/ (nullish (data (ui p)) = false
          /\ truthy (prop (data (ui p)) (lit "error")) = false)).

End Session.

(* ===================================================================== *)
(** ** When the views raise *)
(* ===================================================================== *)

Module Raises.

(** The text of one array element in [join], and the joined text: the
    local function of [to_string], by name. *)
Definition element_text (x : value) : result jsstring :=
  match x with
  | JUndefined | JNull => Ok []
  | _ => to_string x
  end.

Fixpoint join_text (l : list value) : result jsstring :=
  match l with
  | [] => Ok []
  | x :: rest =>
      e <- element_text x ;;
      match rest with
      | [] => Ok e
      | _ => r <- join_text rest ;; Ok (e ++ lit "," ++ r)
      end
  end.

(** ToString returns. *)
Definition printable (v : value) : bool :=
  match to_string v with
  | Ok _ => true
  | Throw _ => false
  end.

(** An item on which [analysis_step] raises: [null], or an item with an
    image whose [image] or [section] cannot be converted to a string. *)
Definition breaks_analysis (item : value) : bool :=
  nullish item
  || (truthy (prop item (lit "image"))
      && negb (printable (prop item (lit "image"))
               && printable (prop item (lit "section")))).

(** What [analysis_step] raises on such an item. *)
Definition analysis_error (item : value) : exn :=
  if nullish item then cannot_read item (lit "section") else cannot_convert.

(** The counter of one tab label for a step sequence. *)
Definition count_badge (is_tab : bool) (items : list value) : guarded value :=
  match items with
  | _ :: _ => if is_tab then Shown (JNum (Z.of_nat (List.length items)))
              else Hidden (JBool false)
  | [] => Hidden (JBool false)
  end.

(** [Number.MAX_SAFE_INTEGER]: up to it every integer is a double, and
    JavaScript prints it as its decimal numeral. *)
Definition max_safe_integer : Z := 9007199254740991.

Definition safe_integer (z : Z) : bool := (Z.abs z <=? max_safe_integer)%Z.

(** The values whose text [to_string] gives as JavaScript does: every
    number that ToString reaches, directly or through arrays, is a safe
    integer. An object prints without its fields being read. *)
Fixpoint exact_text (v : value) : bool :=
  match v with
  | JNum z => safe_integer z
  | JArr items =>
      (fix all (l : list value) : bool :=
         match l with
         | [] => true
         | x :: rest => exact_text x && all rest
         end) items
  | _ => true
  end.

End Raises.

(* ===================================================================== *)
(** ** One render of the layout *)
(* ===================================================================== *)

Module Page.





Section Render.

Variable number_toLocaleString : Z -> jsstring.
Variable string_gt : jsstring -> Z -> bool.


End Render.

End Page.

(* ===================================================================== *)
(** ** The earlier revision of [App] (App.jsx, lines 326-545) *)
(* ===================================================================== *)

Module Legacy.

(** [handleGenerate] of the earlier revision: no request body, the previous
    result is not cleared, and success returns to the first tab. The
    revision has no [instructions] cell; the cell is carried along
    untouched. *)
Definition start (st : state) : state * request :=
  (setError JNull (setLoading true st),
   {| url := lit "http://localhost:8000/generate-report";
      method := lit "POST";
      headers := [];
      body := JUndefined |}).

Definition resolve (o : settled) (st : state) : state :=
  setLoading false
    match awaited o with
    | Ok result => setActiveTab ingestion (setData result st)
    | Throw err => setError (JStr (message err)) st
    end.

Definition handleGenerate (st : state) (o : settled) : state :=
  resolve o (fst (start st)).

(** [SynthesisView] of the earlier revision: the child handed to
    [ReactMarkdown] is [data?.markdown_content?.replace(pattern, '')]. *)
Definition SynthesisView (data : value) : result value :=
  match opt_get data (lit "markdown_content") with
  | JUndefined | JNull => Ok JUndefined
  | JStr s => Ok (JStr (ImagePattern.strip s))
  | _ => Throw (not_a_function "data?.markdown_content?.replace")
  end.

End Legacy.

(* ===================================================================== *)
(** ** Properties *)
(* ===================================================================== *)

Unset Implicit Arguments.

(** *** The fragment of JavaScript, on small inputs *)

Example lit_abc : lit "abc" = [97; 98; 99]%N.
Proof. reflexivity. Qed.

Example of_nat_120 : of_nat 120 = lit "120".
Proof. reflexivity. Qed.

Example of_Z_negative : of_Z (-70) = lit "-70".
Proof. reflexivity. Qed.

Example of_Z_zero : of_Z 0 = lit "0" /\ of_nat 0 = lit "0".
Proof. split; reflexivity. Qed.

Example trim_inner_space_kept :
  trim (lit "  SUV vs Sedan  ") = lit "SUV vs Sedan".
Proof. reflexivity. Qed.

Example to_string_array :
  to_string (JArr [JNum 1; JNull; JArr [JStr (lit "a"); JBool true]; JObj []])
  = Ok (lit "1,,a,true,[object Object]").
Proof. reflexivity. Qed.

Example to_string_own_toString :
  to_string (JObj [(lit "toString", JNum 1)]) = Throw cannot_convert.
Proof. reflexivity. Qed.

Example get_of_null :
  get JNull (lit "error")
  = Throw (TypeError (lit "Cannot read properties of null (reading 'error')")).
Proof. reflexivity. Qed.

Example strip_inline_image :
  ImagePattern.strip (lit "a ![alt](http://x/y.png) b") = lit "a  b".
Proof. reflexivity. Qed.

Example strip_two_images :
  ImagePattern.strip (lit "![a](b) and ![c](d)!") = lit " and !".
Proof. reflexivity. Qed.

Example strip_stops_at_line_end :
  ImagePattern.strip (lit "![a" ++ [10%N] ++ lit "](b)")
  = lit "![a" ++ [10%N] ++ lit "](b)".
Proof. reflexivity. Qed.

Example rejected_fetch_fails :
  lifecycle_of (handleGenerate initial (Rejected (TypeError (lit "Failed to fetch"))))
  = Failed (JStr (lit "Failed to fetch")).
Proof. reflexivity. Qed.

(** *** Request lifecycle *)

Lemma own_error_prop fields v :
  own fields (lit "error") = Some v -> prop (JObj fields) (lit "error") = v.
Proof. intros H; simpl; rewrite H; reflexivity. Qed.

Lemma awaited_throw_message fields s :
  own fields (lit "error") = Some (JStr s) -> s <> [] ->
  awaited (Parsed (JObj fields)) = Throw (Error s).
Proof.
  intros Hown Hs. unfold awaited, get. cbn [nullish bind].
  rewrite (own_error_prop _ _ Hown).
  destruct s as [|c s]; [congruence | reflexivity].
Qed.

Lemma awaited_ok r :
  nullish r = false -> truthy (prop r (lit "error")) = false ->
  awaited (Parsed r) = Ok r.
Proof.
  intros Hn Ht. unfold awaited, get. rewrite Hn. cbn [bind].
  rewrite Ht. reflexivity.
Qed.

Lemma truthy_not_nullish v : truthy v = true -> nullish v = false.
Proof. destruct v; simpl; congruence. Qed.

(** C1. A parsed response with a non-empty [error] string ends the request
    in [Failed] with exactly that string, shown in the error banner; no
    result is kept and the visible tab does not move. *)
Theorem domain_failure_surfaces_error (st : state) fields (s : jsstring) :
  own fields (lit "error") = Some (JStr s) ->
  s <> [] ->
  let st' := handleGenerate st (Parsed (JObj fields)) in
  lifecycle_of st' = Failed (JStr s)
  /\ error st' = JStr s
  /\ error_banner st' = Shown (JStr s)
  /\ data st' = JNull
  /\ loading st' = false
  /\ activeTab st' = activeTab st.
Proof.
  intros Hown Hs st'. subst st'.
  unfold handleGenerate, resolve.
  rewrite (awaited_throw_message _ _ Hown Hs).
  destruct s as [|c s]; [congruence|].
  repeat split.
Qed.

Lemma domain_failure_surfaces_error_witness :
  let fields := [(lit "error", JStr (lit "quota exceeded"))] in
  let st' := handleGenerate initial (Parsed (JObj fields)) in
  own fields (lit "error") = Some (JStr (lit "quota exceeded"))
  /\ lit "quota exceeded" <> []
  /\ lifecycle_of st' = Failed (JStr (lit "quota exceeded"))
  /\ data st' = JNull.
Proof.
  assert (H1 : own [(lit "error", JStr (lit "quota exceeded"))] (lit "error")
               = Some (JStr (lit "quota exceeded"))) by reflexivity.
  assert (H2 : lit "quota exceeded" <> []) by discriminate.
  pose proof (domain_failure_surfaces_error initial _ _ H1 H2) as H.
  cbv zeta in H |- *.
  destruct H as (Ha & _ & _ & Hd & _).
  repeat split; assumption.
Defined.

(** C10. A parsed response whose [error] field is the empty string is a
    success: the whole object is kept as the result, no error is set, and
    the visible tab becomes [synthesis]. *)
Theorem empty_error_is_success (st : state) fields :
  own fields (lit "error") = Some (JStr []) ->
  let st' := handleGenerate st (Parsed (JObj fields)) in
  lifecycle_of st' = Succeeded (JObj fields)
  /\ data st' = JObj fields
  /\ error st' = JNull
  /\ error_banner st' = Hidden JNull
  /\ activeTab st' = synthesis
  /\ loading st' = false.
Proof.
  intros Hown st'. subst st'.
  unfold handleGenerate, resolve.
  rewrite awaited_ok; [repeat split | reflexivity |].
  rewrite (own_error_prop _ _ Hown). reflexivity.
Qed.

Lemma empty_error_is_success_witness :
  let fields := [(lit "error", JStr []); (lit "pandas_agent", JArr [])] in
  let st' := handleGenerate (setActiveTab rag initial) (Parsed (JObj fields)) in
  own fields (lit "error") = Some (JStr [])
  /\ lifecycle_of st' = Succeeded (JObj fields)
  /\ activeTab st' = synthesis.
Proof.
  assert (H1 : own [(lit "error", JStr []); (lit "pandas_agent", JArr [])]
                 (lit "error") = Some (JStr [])) by reflexivity.
  pose proof (empty_error_is_success (setActiveTab rag initial) _ H1) as H.
  cbv zeta in H |- *.
  destruct H as (Ha & _ & _ & _ & Hb & _).
  repeat split; assumption.
Defined.

(** C5, as stated, fails: the body [null] parses as JSON and carries no
    [error] field, yet reading [result.error] raises and the request ends
    in [Failed], the tab unmoved. *)
Lemma null_body_fails :
  let st' := handleGenerate initial (Parsed JNull) in
  error_field JNull = None
  /\ lifecycle_of st'
     = Failed (JStr (lit "Cannot read properties of null (reading 'error')"))
  /\ data st' = JNull
  /\ activeTab st' = ingestion.
Proof. cbv zeta. repeat split. Qed.

(** C5, amended. A parsed response that is an object, or any other truthy
    value, and whose [error] property is absent or falsy ends the request
    in [Succeeded] holding the parsed value, and the visible tab becomes
    [synthesis] whatever it was, also when the user changed tabs while
    the request was pending. *)
Theorem success_jumps_to_synthesis (loc : Z -> jsstring) (st : state)
        (r : value) :
  truthy r = true ->
  truthy (prop r (lit "error")) = false ->
  let st' := handleGenerate st (Parsed r) in
  lifecycle_of st' = Succeeded r
  /\ data st' = r
  /\ error st' = JNull
  /\ activeTab st' = synthesis
  /\ loading st' = false
  /\ main_content loc st'
     = (v <- SynthesisView (prop r (lit "synthesis")) ;;
        Ok (Results (SynthesisSection v)))
  /\ (forall t : tab,
        let waiting := setActiveTab t (fst (start st)) in
        lifecycle_of waiting = Pending
        /\ lifecycle_of (resolve (Parsed r) waiting) = Succeeded r
        /\ activeTab (resolve (Parsed r) waiting) = synthesis).
Proof.
  intros Hr He st'. subst st'.
  unfold handleGenerate, resolve.
  rewrite (awaited_ok _ (truthy_not_nullish _ Hr) He).
  unfold lifecycle_of, main_content. cbn. rewrite Hr. repeat split.
Qed.

Lemma success_jumps_to_synthesis_witness :
  let r := JObj [(lit "synthesis",
                  JObj [(lit "markdown_content", JStr (lit "Sales rose."))])] in
  let st' := handleGenerate (setActiveTab pandas initial) (Parsed r) in
  truthy r = true
  /\ truthy (prop r (lit "error")) = false
  /\ lifecycle_of st' = Succeeded r
  /\ activeTab st' = synthesis.
Proof.
  cbv zeta.
  pose proof (success_jumps_to_synthesis of_Z (setActiveTab pandas initial)
    (JObj [(lit "synthesis",
            JObj [(lit "markdown_content", JStr (lit "Sales rose."))])])
    eq_refl eq_refl) as H.
  cbv zeta in H. destruct H as (Ha & _ & _ & Hb & _).
  repeat split; assumption.
Defined.

(** *** The request body *)

Lemma trim_start_split s :
  exists pre, s = pre ++ trim_start s /\ forallb is_trimmed pre = true.
Proof.
  induction s as [|c s IH]; simpl.
  - exists []. split; reflexivity.
  - destruct (is_trimmed c) eqn:E.
    + destruct IH as (pre & Hs & Hp). exists (c :: pre). simpl.
      rewrite E, Hp. split; [f_equal; exact Hs | reflexivity].
    + exists []. split; reflexivity.
Qed.

Lemma trim_start_head s c t : trim_start s = c :: t -> is_trimmed c = false.
Proof.
  induction s as [|d s IH]; simpl; [discriminate|].
  destruct (is_trimmed d) eqn:E; [exact IH|].
  intros H; injection H as -> _. exact E.
Qed.

Lemma trim_start_blank s : forallb is_trimmed s = true -> trim_start s = [].
Proof.
  induction s as [|c s IH]; simpl; [reflexivity|].
  intros H. apply andb_prop in H as [Hc Hs]. rewrite Hc. auto.
Qed.

Lemma forallb_rev {A} (f : A -> bool) l : forallb f (rev l) = forallb f l.
Proof.
  induction l as [|a l IH]; simpl; [reflexivity|].
  rewrite forallb_app, IH. simpl. rewrite andb_true_r. apply andb_comm.
Qed.

Lemma trim_split s :
  exists pre post,
    s = pre ++ trim s ++ post
    /\ forallb is_trimmed pre = true
    /\ forallb is_trimmed post = true.
Proof.
  destruct (trim_start_split s) as (pre & Hs & Hpre).
  destruct (trim_start_split (rev (trim_start s))) as (q & Hq & Hqt).
  exists pre, (rev q). unfold trim, trim_end.
  split; [|split; [exact Hpre | rewrite forallb_rev; exact Hqt]].
  rewrite <- rev_app_distr, <- Hq, rev_involutive. exact Hs.
Qed.

Lemma trim_first s c t : trim s = c :: t -> is_trimmed c = false.
Proof.
  unfold trim, trim_end. intros H.
  destruct (trim_start_split (rev (trim_start s))) as (q & Hq & Hqt).
  assert (Hs : trim_start s = (c :: t) ++ rev q).
  { rewrite <- H, <- rev_app_distr, <- Hq, rev_involutive. reflexivity. }
  simpl in Hs. exact (trim_start_head _ _ _ Hs).
Qed.

Lemma trim_last s t c : trim s = t ++ [c] -> is_trimmed c = false.
Proof.
  unfold trim, trim_end. intros H.
  apply (f_equal (@rev _)) in H. rewrite rev_involutive, rev_unit in H.
  exact (trim_start_head _ _ _ H).
Qed.

Lemma trim_blank s : forallb is_trimmed s = true -> trim s = [].
Proof.
  intros H. unfold trim, trim_end. rewrite (trim_start_blank _ H). reflexivity.
Qed.

(** C2. [handleGenerate] sends the object whose one field,
    [user_instructions] (the specification's [userInstructions]), is the
    trimmed instructions text: always a string, and the empty string for
    the empty text, for ["   "] and for any blank text. The trimmed text is
    the input without its leading and trailing white space. *)
Theorem start_sends_trimmed_instructions (st : state) :
  body (snd (start st))
  = JObj [(lit "user_instructions", JStr (trim (instructions st)))]
  /\ prop (body (snd (start st))) (lit "user_instructions")
     = JStr (trim (instructions st))
  /\ body (snd (start (setInstructions [] st)))
     = JObj [(lit "user_instructions", JStr [])]
  /\ body (snd (start (setInstructions (lit "   ") st)))
     = JObj [(lit "user_instructions", JStr [])]
  /\ (forallb is_trimmed (instructions st) = true ->
      body (snd (start st)) = JObj [(lit "user_instructions", JStr [])])
  /\ (exists pre post,
       instructions st = pre ++ trim (instructions st) ++ post
       /\ forallb is_trimmed pre = true
       /\ forallb is_trimmed post = true)
  /\ match trim (instructions st) with
     | c :: _ => is_trimmed c = false
     | [] => True
     end
  /\ match rev (trim (instructions st)) with
     | c :: _ => is_trimmed c = false
     | [] => True
     end.
Proof.
  split; [reflexivity|]. split; [reflexivity|].
  split; [reflexivity|]. split; [reflexivity|].
  split; [intros H; cbn; rewrite (trim_blank _ H); reflexivity|].
  split; [apply trim_split|]. split.
  - destruct (trim (instructions st)) as [|c t] eqn:E; [exact I|].
    exact (trim_first _ _ _ E).
  - destruct (rev (trim (instructions st))) as [|c t] eqn:E; [exact I|].
    apply (trim_last (instructions st) (rev t)).
    rewrite <- (rev_involutive (trim (instructions st))), E. reflexivity.
Qed.

Lemma start_sends_trimmed_instructions_witness :
  let st := setInstructions (lit "  Compare SUV vs Sedan " ++ [10%N]) initial in
  let blank := setInstructions ([9; 32; 10; 160]%N) initial in
  body (snd (start st))
  = JObj [(lit "user_instructions", JStr (lit "Compare SUV vs Sedan"))]
  /\ forallb is_trimmed (instructions blank) = true
  /\ body (snd (start blank)) = JObj [(lit "user_instructions", JStr [])].
Proof.
  cbv zeta.
  destruct (start_sends_trimmed_instructions
              (setInstructions (lit "  Compare SUV vs Sedan " ++ [10%N]) initial))
    as (Hbody & _).
  destruct (start_sends_trimmed_instructions
              (setInstructions ([9; 32; 10; 160]%N) initial))
    as (_ & _ & _ & _ & Hblank & _).
  split; [rewrite Hbody; reflexivity|].
  split; [reflexivity|]. apply Hblank. reflexivity.
Defined.

(** *** The image pattern *)

Import ImagePattern.

Lemma strip_cons_none c s :
  match_here (c :: s) = None -> strip (c :: s) = c :: strip s.
Proof. intros H. simp strip. rewrite H. reflexivity. Qed.

Lemma strip_cons_some c s n :
  match_here (c :: s) = Some (S n) -> strip (c :: s) = strip (skipn n s).
Proof. intros H. simp strip. rewrite H. reflexivity. Qed.

Lemma expect_some c k s n :
  expect c k s = Some n ->
  exists s' m, s = c :: s' /\ k s' = Some m /\ n = S m.
Proof.
  destruct s as [|d s]; simpl; [discriminate|].
  destruct (N.eqb_spec d c) as [->|]; [|discriminate].
  destruct (k s) as [m|] eqn:E; simpl; [|discriminate].
  intros H; injection H as <-. exists s, m. auto.
Qed.

Lemma expect_hit c k s : expect c k (c :: s) = option_map S (k s).
Proof. simpl. rewrite N.eqb_refl. reflexivity. Qed.

Lemma lazy_dots_some k s n :
  lazy_dots k s = Some n ->
  exists run rest m,
    s = run ++ rest /\ one_line run = true /\ k rest = Some m
    /\ n = List.length run + m.
Proof.
  revert n. induction s as [|c s IH]; intros n; simpl.
  - destruct (k []) as [m|] eqn:E; [|discriminate].
    intros H; injection H as <-. exists [], [], m. auto.
  - destruct (k (c :: s)) as [m|] eqn:E.
    + intros H; injection H as <-. exists [], (c :: s), m. auto.
    + destruct (is_line_terminator c) eqn:Ec; [discriminate|].
      destruct (lazy_dots k s) as [m|] eqn:El; simpl; [|discriminate].
      intros H; injection H as <-.
      destruct (IH m eq_refl) as (run & rest & m' & -> & Hrun & Hk & ->).
      exists (c :: run), rest, m'. simpl. rewrite Ec, Hrun. auto.
Qed.

Lemma lazy_dots_run c k run rest :
  lacks c run = true -> one_line run = true ->
  lazy_dots (expect c k) (run ++ rest)
  = option_map (Nat.add (List.length run)) (lazy_dots (expect c k) rest).
Proof.
  induction run as [|d run IH]; simpl; intros Hl Ho.
  - destruct (lazy_dots (expect c k) rest); reflexivity.
  - apply andb_prop in Hl as [Hd Hl]. apply andb_prop in Ho as [Hn Ho].
    apply negb_true_iff in Hd, Hn. rewrite Hd, Hn, (IH Hl Ho).
    destruct (lazy_dots (expect c k) rest); reflexivity.
Qed.

Lemma lazy_dots_now k s n : k s = Some n -> lazy_dots k s = Some n.
Proof. intros H. destruct s; simpl; rewrite H; reflexivity. Qed.

Lemma directive_app alt src rest :
  directive alt src ++ rest
  = ch "!" :: ch "[" :: alt ++ ch "]" :: ch "(" :: src ++ ch ")" :: rest.
Proof.
  unfold directive. change (lit "![") with [ch "!"; ch "["].
  change (lit "](") with [ch "]"; ch "("]. change (lit ")") with [ch ")"].
  cbn [app]. rewrite <- !app_assoc. cbn [app]. rewrite <- !app_assoc.
  reflexivity.
Qed.

Lemma directive_length alt src :
  List.length (directive alt src) = 5 + List.length alt + List.length src.
Proof.
  rewrite <- (app_nil_r (directive alt src)), directive_app.
  simpl. rewrite !length_app. simpl. rewrite !length_app. simpl. lia.
Qed.

(** A match is a directive whose two parts hold no line terminator. *)
Lemma match_here_sound s n :
  match_here s = Some n ->
  exists alt src rest,
    s = directive alt src ++ rest
    /\ one_line alt = true /\ one_line src = true
    /\ n = List.length (directive alt src).
Proof.
  unfold match_here. intros H.
  apply expect_some in H as (s1 & n1 & -> & H & ->).
  apply expect_some in H as (s2 & n2 & -> & H & ->).
  apply lazy_dots_some in H as (alt & s3 & n3 & -> & Halt & H & ->).
  apply expect_some in H as (s4 & n4 & -> & H & ->).
  apply expect_some in H as (s5 & n5 & -> & H & ->).
  apply lazy_dots_some in H as (src & s6 & n6 & -> & Hsrc & H & ->).
  apply expect_some in H as (rest & n7 & -> & H & ->).
  injection H as <-.
  exists alt, src, rest. repeat split; try assumption.
  - rewrite directive_app. reflexivity.
  - rewrite directive_length. lia.
Qed.

(** A directive whose alt text holds no closing bracket and whose source
    holds no closing parenthesis, both on one line, is matched whole. *)
Lemma match_here_directive alt src rest :
  lacks (ch "]") alt = true -> one_line alt = true ->
  lacks (ch ")") src = true -> one_line src = true ->
  match_here (directive alt src ++ rest)
  = Some (List.length (directive alt src)).
Proof.
  intros Ha1 Ha2 Hs1 Hs2.
  rewrite directive_app, directive_length. unfold match_here.
  rewrite !expect_hit.
  rewrite lazy_dots_run by assumption.
  rewrite (lazy_dots_now _ _ (2 + (List.length src + 1))).
  - simpl. f_equal. lia.
  - rewrite !expect_hit.
    rewrite lazy_dots_run by assumption.
    rewrite (lazy_dots_now _ _ 1).
    + simpl. rewrite Nat.add_comm. reflexivity.
    + rewrite expect_hit. reflexivity.
Qed.

Lemma skipn_directive alt src rest c s n :
  c :: s = directive alt src ++ rest ->
  S n = List.length (directive alt src) ->
  skipn n s = rest.
Proof.
  intros Hs Hn.
  replace s with (skipn 1 (directive alt src ++ rest))
    by (rewrite <- Hs; reflexivity).
  rewrite skipn_skipn.
  replace (n + 1)%nat with (List.length (directive alt src)) by lia.
  rewrite skipn_app, Nat.sub_diag, (skipn_all (directive alt src)).
  reflexivity.
Qed.

(** [strip] only takes directives out. *)
Lemma strip_erased s : erased s (strip s).
Proof.
  funelim (strip s).
  - constructor.
  - constructor. assumption.
  - destruct (match_here_sound _ _ Heq) as (alt & src & rest & Hs & Ha & Hb & Hn).
    rewrite (skipn_directive _ _ _ _ _ _ Hs Hn) in *.
    rewrite Hs. constructor; assumption.
  - constructor. assumption.
Qed.

(** A directive at the front is dropped whole. *)
Lemma strip_directive alt src rest :
  lacks (ch "]") alt = true -> one_line alt = true ->
  lacks (ch ")") src = true -> one_line src = true ->
  strip (directive alt src ++ rest) = strip rest.
Proof.
  intros Ha1 Ha2 Hs1 Hs2.
  pose proof (match_here_directive alt src rest Ha1 Ha2 Hs1 Hs2) as Hm.
  pose proof (directive_length alt src) as Hl.
  remember (directive alt src ++ rest) as s eqn:Hs.
  destruct s as [|c s]; [rewrite directive_app in Hs; discriminate|].
  rewrite Hl in Hm. simpl in Hm.
  rewrite (strip_cons_some _ _ _ Hm).
  f_equal. apply (skipn_directive alt src rest _ _ _ Hs). rewrite Hl. reflexivity.
Qed.

Lemma match_here_not_open c s :
  opens_image (c :: firstn 1 s) = false -> match_here (c :: s) = None.
Proof.
  unfold match_here. destruct s as [|d s]; simpl.
  - destruct (N.eqb c 33); reflexivity.
  - rewrite orb_false_r. intros H.
    destruct (N.eqb c 33); [|reflexivity].
    simpl in H. rewrite H. reflexivity.
Qed.

Lemma opens_image_cons c s :
  opens_image (c :: s) = false ->
  opens_image (c :: firstn 1 s) = false /\ opens_image s = false.
Proof.
  destruct s as [|d s]; simpl; [auto|].
  intros H. apply orb_false_elim in H as [H1 H2].
  rewrite H1. destruct s; auto.
Qed.

(** Text in which no [![] opens is kept, up to the first character of
    what follows it. *)
Lemma strip_keeps_prefix pre s :
  opens_image (pre ++ firstn 1 s) = false ->
  strip (pre ++ s) = pre ++ strip s.
Proof.
  induction pre as [|c pre IH]; [reflexivity|].
  cbn [app]. intros H.
  apply opens_image_cons in H as [H1 H2].
  rewrite strip_cons_none.
  - rewrite (IH H2). reflexivity.
  - apply match_here_not_open.
    destruct pre as [|d pre]; [destruct s; exact H1 | exact H1].
Qed.

Lemma opens_image_lacks pre x :
  lacks (ch "!") pre = true -> opens_image (pre ++ x) = opens_image x.
Proof.
  induction pre as [|c pre IH]; [reflexivity|].
  simpl. intros H. apply andb_prop in H as [Hc Hp].
  apply negb_true_iff in Hc. change (ch "!") with 33%N in Hc.
  rewrite Hc. simpl. rewrite (IH Hp).
  destruct (pre ++ x) eqn:E; [|reflexivity].
  apply app_eq_nil in E as [_ ->]. reflexivity.
Qed.

Lemma opens_image_short x : opens_image (firstn 1 x) = false.
Proof. destruct x as [|c [|d x]]; reflexivity. Qed.

Lemma strip_header s : strip (reportHeader ++ s) = reportHeader ++ strip s.
Proof.
  apply strip_keeps_prefix.
  rewrite opens_image_lacks by reflexivity. apply opens_image_short.
Qed.

Lemma strip_without_occurrence s : occurs s = false -> strip s = s.
Proof.
  induction s as [|c s IH]; [reflexivity|].
  cbn [occurs]. destruct (match_here (c :: s)) eqn:E; [discriminate|].
  intros H. rewrite (strip_cons_none _ _ E), (IH H). reflexivity.
Qed.

Lemma strip_after_clean_prefix pre alt src post :
  opens_image pre = false ->
  lacks (ch "]") alt = true -> one_line alt = true ->
  lacks (ch ")") src = true -> one_line src = true ->
  strip (pre ++ directive alt src ++ post) = pre ++ strip post.
Proof.
  intros Hp Ha1 Ha2 Hs1 Hs2.
  rewrite strip_keeps_prefix.
  - rewrite strip_directive by assumption. reflexivity.
  - rewrite directive_app. cbn [firstn].
    clear - Hp. induction pre as [|c pre IH]; [reflexivity|].
    cbn [app]. apply opens_image_cons in Hp as [H1 H2].
    specialize (IH H2).
    destruct pre as [|d pre]; cbn [app] in *.
    + simpl. rewrite andb_false_r. reflexivity.
    + simpl in H1 |- *. rewrite orb_false_r in H1. rewrite H1. exact IH.
Qed.

Lemma synthesis_of_text data s :
  opt_get data (lit "markdown_content") = JStr s -> s <> [] ->
  SynthesisView data = Ok {| sv_markdown := reportHeader ++ strip s |}.
Proof.
  intros H Hs. unfold SynthesisView, fullMarkdown. rewrite H.
  destruct s as [|c s]; [congruence|].
  cbn [or_else truthy append_text to_string bind].
  rewrite strip_header. reflexivity.
Qed.

Lemma synthesis_of_nothing data :
  truthy (opt_get data (lit "markdown_content")) = false ->
  SynthesisView data = Ok {| sv_markdown := reportHeader ++ pending |}.
Proof.
  intros H. unfold SynthesisView, fullMarkdown, or_else. rewrite H.
  cbn [append_text to_string bind]. rewrite strip_header.
  rewrite (strip_without_occurrence pending) by reflexivity. reflexivity.
Qed.

(** C4, as stated, fails: after the pass the text can still hold an image
    directive (one that the removal of another has put together), and a
    source with a parenthesis of its own leaves its tail behind. *)
Lemma strip_leaves_directive :
  SynthesisView
    (JObj [(lit "markdown_content", JStr (lit "!![a](b)[c](d)"))])
  = Ok {| sv_markdown := reportHeader ++ lit "![c](d)" |}
  /\ occurs (reportHeader ++ lit "![c](d)") = true
  /\ SynthesisView
       (JObj [(lit "markdown_content", JStr (lit "x ![a](b(c)d) y"))])
     = Ok {| sv_markdown := reportHeader ++ lit "x d) y" |}.
Proof.
  split; [|split].
  - rewrite (synthesis_of_text _ (lit "!![a](b)[c](d)")) by
      (reflexivity || discriminate).
    reflexivity.
  - reflexivity.
  - rewrite (synthesis_of_text _ (lit "x ![a](b(c)d) y")) by
      (reflexivity || discriminate).
    reflexivity.
Qed.

(** C4, amended. The text handed to the markdown renderer is the fixed
    header followed by the record's [markdown_content], or by the
    placeholder when the record or its content is absent or falsy, after
    one left-to-right pass of the pattern: the pass only takes out
    directives [![alt](src)] whose alt text and source hold no line
    terminator and leaves every other character in place; a text in which
    the pattern does not occur is unchanged; and a directive whose alt
    text holds no closing bracket and whose source holds no closing
    parenthesis, after text in which no [![] opens, is taken out whole. *)
Theorem synthesis_text_single_pass (data : value) :
  (truthy (opt_get data (lit "markdown_content")) = false ->
   SynthesisView data = Ok {| sv_markdown := reportHeader ++ pending |})
  /\ (forall s,
        opt_get data (lit "markdown_content") = JStr s -> s <> [] ->
        SynthesisView data = Ok {| sv_markdown := reportHeader ++ strip s |})
  /\ (forall s, erased s (strip s))
  /\ (forall s, occurs s = false -> strip s = s)
  /\ (forall pre alt src post,
        opens_image pre = false ->
        lacks (ch "]") alt = true -> one_line alt = true ->
        lacks (ch ")") src = true -> one_line src = true ->
        strip (pre ++ directive alt src ++ post) = pre ++ strip post).
Proof.
  split; [apply synthesis_of_nothing|].
  split; [intros s; apply synthesis_of_text|].
  split; [apply strip_erased|].
  split; [apply strip_without_occurrence|].
  apply strip_after_clean_prefix.
Qed.

Lemma synthesis_text_single_pass_witness :
  let data :=
    JObj [(lit "markdown_content", JStr (lit "a ![alt](http://x/y.png) b"))] in
  opt_get data (lit "markdown_content")
  = JStr (lit "a " ++ directive (lit "alt") (lit "http://x/y.png") ++ lit " b")
  /\ SynthesisView data = Ok {| sv_markdown := reportHeader ++ lit "a  b" |}
  /\ SynthesisView JUndefined
     = Ok {| sv_markdown := reportHeader ++ pending |}.
Proof.
  cbv zeta.
  destruct (synthesis_text_single_pass
    (JObj [(lit "markdown_content",
            JStr (lit "a ![alt](http://x/y.png) b"))]))
    as (_ & Htext & _ & _ & Hdrop).
  destruct (synthesis_text_single_pass JUndefined) as (Habsent & _).
  split; [reflexivity|]. split; [|apply Habsent; reflexivity].
  rewrite (Htext (lit "a " ++ directive (lit "alt") (lit "http://x/y.png")
                  ++ lit " b")); [|reflexivity|discriminate].
  rewrite (Hdrop (lit "a ") (lit "alt") (lit "http://x/y.png") (lit " b"));
    reflexivity.
Defined.

(** *** The section views *)

Lemma primitive_to_string v :
  primitive v = true -> exists s, to_string v = Ok s.
Proof. destruct v; simpl; try discriminate; eauto. Qed.

Lemma primitive_toLocaleString loc v :
  primitive v = true -> nullish v = false ->
  exists s, toLocaleString loc v = Ok s.
Proof. destruct v; simpl; try discriminate; eauto. Qed.

Lemma mapM_column_chip l :
  forallb primitive l = true ->
  exists chips, mapM column_chip l = Ok chips /\ map chip_text chips = l.
Proof.
  induction l as [|c l IH]; simpl; intros H.
  - exists []. auto.
  - apply andb_prop in H as [Hc Hl].
    destruct (primitive_to_string c Hc) as (k & Hk).
    destruct (IH Hl) as (chips & Hm & Ht).
    exists ({| chip_key := k; chip_text := c |} :: chips).
    unfold column_chip at 1. rewrite Hk. cbn [bind]. rewrite Hm. cbn [bind].
    simpl. rewrite Ht. auto.
Qed.

Lemma forallb_firstn {A} (f : A -> bool) n l :
  forallb f l = true -> forallb f (firstn n l) = true.
Proof.
  revert n. induction l as [|a l IH]; intros [|n]; simpl; auto.
  intros H. apply andb_prop in H as [Ha Hl]. rewrite Ha. simpl. auto.
Qed.

(** What [IngestionView] returns on an ingestion record. *)
Lemma IngestionView_record loc d :
  ingestion_record d = true ->
  exists iv,
    IngestionView loc d = Ok iv
    /\ iv_status iv = or_else (opt_get d (lit "status")) (JStr (lit "Ready"))
    /\ (nullish (opt_get d (lit "row_count")) = true ->
        iv_total_records iv = JNum 0)
    /\ match opt_get d (lit "columns") with
       | JArr items =>
           (exists chips,
              iv_columns iv = Some chips
              /\ map chip_text chips = firstn 6 items)
           /\ iv_more iv =
              if (6 <? Z.of_nat (List.length items))%Z
              then Shown [JStr (lit "+");
                          JNum (Z.of_nat (List.length items) - 6);
                          JStr (lit " more")]
              else Hidden (JBool false)
       | _ => iv_columns iv = None /\ iv_more iv = Hidden (JBool false)
       end.
Proof.
  unfold ingestion_record, IngestionView. intros H.
  apply andb_prop in H as [H Hcols]. apply andb_prop in H as [_ Hrc].
  set (rc := opt_get d (lit "row_count")) in *.
  assert (Htotal : exists total,
             (if nullish rc then Ok JUndefined
              else s <- toLocaleString loc rc ;; Ok (JStr s)) = Ok total
             /\ (nullish rc = true -> total = JUndefined)).
  { destruct (nullish rc) eqn:En.
    - exists JUndefined. auto.
    - destruct (primitive_toLocaleString loc rc Hrc En) as (s & Hs).
      rewrite Hs. exists (JStr s). split; [reflexivity | discriminate]. }
  destruct Htotal as (total & -> & Htot). cbn [bind].
  destruct (opt_get d (lit "columns")) as [| | | | |items|] eqn:Ec;
    try discriminate.
  - eexists. split; [reflexivity|]. cbn.
    split; [reflexivity|]. split; [|auto].
    intros Hn. rewrite (Htot Hn). reflexivity.
  - eexists. split; [reflexivity|]. cbn.
    split; [reflexivity|]. split; [|auto].
    intros Hn. rewrite (Htot Hn). reflexivity.
  - destruct (mapM_column_chip (firstn 6 items) (forallb_firstn _ 6 _ Hcols))
      as (chips & Hm & Ht).
    rewrite Hm. cbn [bind]. eexists. split; [reflexivity|]. cbn.
    split; [reflexivity|]. split.
    + intros Hn. rewrite (Htot Hn). reflexivity.
    + split; [exists chips; auto | reflexivity].
Qed.

Lemma IngestionView_absent loc d :
  is_record d = false -> IngestionView loc d = Ok ingestion_default.
Proof.
  destruct d as [| | | | s |items|]; try discriminate; intros _;
    try reflexivity.
Qed.

Lemma step_item_fields item :
  step_item item = true ->
  nullish item = false
  /\ primitive (prop item (lit "section")) = true
  /\ primitive (prop item (lit "image")) = true.
Proof.
  unfold step_item, step_fields. cbn [forallb]. intros H.
  apply andb_prop in H as [Hn H]. apply negb_true_iff in Hn.
  apply andb_prop in H as [Hs H]. apply andb_prop in H as [_ H].
  apply andb_prop in H as [_ H]. apply andb_prop in H as [Hi _].
  auto.
Qed.

(** One analysis block, slot by slot. *)
Lemma analysis_step_item item index :
  step_item item = true ->
  exists b,
    analysis_step item index = Ok b
    /\ ab_key b = index
    /\ ab_number b = index + 1
    /\ ab_title b
       = or_else (prop item (lit "section"))
           (JStr (lit "Analysis Step " ++ of_nat (index + 1)))
    /\ ab_task b = prop item (lit "query")
    /\ ab_code b
       = or_else (prop item (lit "code")) (JStr (lit "# No code generated"))
    /\ (truthy (prop item (lit "image")) = false ->
        ab_plot b = NoPlot (lit "No visualization generated"))
    /\ (truthy (prop item (lit "image")) = true ->
        exists src alt, ab_plot b = Image src alt)
    /\ ab_insight b = insight_block (prop item (lit "insight")).
Proof.
  intros H. destruct (step_item_fields item H) as (Hn & Hs & Hi).
  unfold analysis_step, get. rewrite Hn. cbn [bind].
  destruct (truthy (prop item (lit "image"))) eqn:Et.
  - destruct (primitive_to_string _ Hi) as (si & Hsi).
    destruct (primitive_to_string _ Hs) as (ss & Hss).
    unfold append_text. rewrite Hsi, Hss. cbn [bind].
    eexists. split; [reflexivity|]. cbn.
    repeat split; try discriminate. eauto.
  - cbn [bind]. eexists. split; [reflexivity|]. cbn.
    repeat split; try discriminate.
Qed.

(** One research block, slot by slot. *)
Lemma research_step_item item index :
  step_item item = true ->
  exists b,
    research_step item index = Ok b
    /\ rb_key b = index
    /\ rb_number b = index + 1
    /\ rb_title b
       = or_else (prop item (lit "section"))
           (JStr (lit "Research Step " ++ of_nat (index + 1)))
    /\ rb_question b = prop item (lit "query")
    /\ rb_context b
       = or_else (prop item (lit "context")) (JStr (lit "No context found."))
    /\ rb_insight b = insight_block (prop item (lit "insight")).
Proof.
  intros H. destruct (step_item_fields item H) as (Hn & _ & _).
  unfold research_step, get. rewrite Hn. cbn [bind].
  eexists. split; [reflexivity|]. cbn. repeat split.
Qed.

(** [map] with indices: one result per element, in order. *)
Lemma mapM_index_each {A B} (f : A -> nat -> result B) (R : A -> nat -> B -> Prop)
      (ok : A -> bool) l :
  (forall a i, ok a = true -> exists b, f a i = Ok b /\ R a i b) ->
  forallb ok l = true ->
  forall start,
  exists bs,
    mapM_index f l start = Ok bs
    /\ List.length bs = List.length l
    /\ forall i a, nth_error l i = Some a ->
         exists b, nth_error bs i = Some b /\ R a (start + i) b.
Proof.
  intros Hf. induction l as [|a l IH]; simpl; intros Hl start.
  - exists []. split; [reflexivity|]. split; [reflexivity|].
    intros [|i] x; discriminate.
  - apply andb_prop in Hl as [Ha Hl].
    destruct (Hf a start Ha) as (b & Hb & HR).
    destruct (IH Hl (S start)) as (bs & Hbs & Hlen & Hnth).
    exists (b :: bs). rewrite Hb. cbn [bind]. rewrite Hbs. cbn [bind].
    split; [reflexivity|]. split; [simpl; congruence|].
    intros [|i] x; simpl.
    + intros E; injection E as <-. exists b. rewrite Nat.add_0_r. auto.
    + intros E. destruct (Hnth i x E) as (b' & Hb' & HR').
      exists b'. rewrite <- plus_n_Sm. auto.
Qed.

Lemma PandasAgentView_absent d :
  isArray d = false \/ d = JArr [] -> PandasAgentView d = Ok pandas_placeholder.
Proof.
  intros [H | ->]; [|reflexivity].
  unfold PandasAgentView. rewrite H, orb_true_r. reflexivity.
Qed.

Lemma RAGAgentView_absent d :
  isArray d = false \/ d = JArr [] -> RAGAgentView d = Ok rag_placeholder.
Proof.
  intros [H | ->]; [|reflexivity].
  unfold RAGAgentView. rewrite H, orb_true_r. reflexivity.
Qed.

Lemma PandasAgentView_steps item items :
  PandasAgentView (JArr (item :: items))
  = blocks <- mapM_index analysis_step (item :: items) 0 ;;
    Ok (AnalysisSteps blocks).
Proof. reflexivity. Qed.

Lemma RAGAgentView_steps item items :
  RAGAgentView (JArr (item :: items))
  = blocks <- mapM_index research_step (item :: items) 0 ;;
    Ok (ResearchSteps blocks).
Proof. reflexivity. Qed.

Lemma PandasAgentView_total d :
  step_sequence d = true -> exists v, PandasAgentView d = Ok v.
Proof.
  intros H. destruct d as [| | | | | [|item items] |];
    try (eexists; apply PandasAgentView_absent; auto; fail).
  rewrite PandasAgentView_steps.
  destruct (mapM_index_each analysis_step (fun _ _ _ => True) step_item
              (item :: items)) with (start := 0) as (bs & -> & _).
  - intros a i Ha. destruct (analysis_step_item a i Ha) as (b & Hb & _).
    eauto.
  - exact H.
  - eexists. reflexivity.
Qed.

Lemma RAGAgentView_total d :
  step_sequence d = true -> exists v, RAGAgentView d = Ok v.
Proof.
  intros H. destruct d as [| | | | | [|item items] |];
    try (eexists; apply RAGAgentView_absent; auto; fail).
  rewrite RAGAgentView_steps.
  destruct (mapM_index_each research_step (fun _ _ _ => True) step_item
              (item :: items)) with (start := 0) as (bs & -> & _).
  - intros a i Ha. destruct (research_step_item a i Ha) as (b & Hb & _).
    eauto.
  - exact H.
  - eexists. reflexivity.
Qed.

Lemma SynthesisView_total d :
  synthesis_record d = true -> exists v, SynthesisView d = Ok v.
Proof.
  unfold synthesis_record, SynthesisView, fullMarkdown, or_else, append_text.
  intros H. destruct (truthy (opt_get d (lit "markdown_content"))).
  - destruct (primitive_to_string _ H) as (s & ->). eexists. reflexivity.
  - eexists. reflexivity.
Qed.

(** C3, as stated, fails: a step sequence holding [null] makes both step
    views raise on [item.section], and an ingestion record whose [columns]
    is not an array makes [IngestionView] raise on [slice]. *)
Lemma null_step_item_throws :
  PandasAgentView (JArr [JNull])
  = Throw (TypeError (lit "Cannot read properties of null (reading 'section')"))
  /\ RAGAgentView (JArr [JNull])
     = Throw (TypeError (lit "Cannot read properties of null (reading 'section')"))
  /\ IngestionView of_Z (JObj [(lit "columns", JNum 5)])
     = Throw (TypeError (lit "data?.columns?.slice is not a function")).
Proof. repeat split. Qed.

(** C3, amended. For every result whose step items are not [null], whose
    [columns] is absent or an array, and whose fields, where present, hold
    primitives, each of the four views returns without raising, whatever
    else is absent, empty or of another type; a subsection that is absent
    or not of its kind (an ingestion or synthesis subsection that is not an
    object, a step sequence that is not an array or is empty) gives the
    view's placeholder. *)
Theorem views_return_on_renderable (loc : Z -> jsstring) (model : value) :
  renderable model = true ->
  exists iv pv rv sv,
    IngestionView loc (prop model (lit "ingestion")) = Ok iv
    /\ PandasAgentView (prop model (lit "pandas_agent")) = Ok pv
    /\ RAGAgentView (prop model (lit "rag_agent")) = Ok rv
    /\ SynthesisView (prop model (lit "synthesis")) = Ok sv
    /\ (is_record (prop model (lit "ingestion")) = false ->
        iv = ingestion_default)
    /\ iv_status iv
       = or_else (opt_get (prop model (lit "ingestion")) (lit "status"))
           (JStr (lit "Ready"))
    /\ (nullish (opt_get (prop model (lit "ingestion")) (lit "row_count"))
        = true ->
        iv_total_records iv = JNum 0)
    /\ (isArray (prop model (lit "pandas_agent")) = false
        \/ prop model (lit "pandas_agent") = JArr [] ->
        pv = pandas_placeholder)
    /\ (isArray (prop model (lit "rag_agent")) = false
        \/ prop model (lit "rag_agent") = JArr [] ->
        rv = rag_placeholder)
    /\ (truthy (opt_get (prop model (lit "synthesis")) (lit "markdown_content"))
        = false ->
        sv = synthesis_pending).
Proof.
  unfold renderable. intros H.
  apply andb_prop in H as [H Hsyn]. apply andb_prop in H as [H Hrag].
  apply andb_prop in H as [Hing Hpan].
  destruct (IngestionView_record loc _ Hing) as (iv & Hiv & Hst & Hrc & _).
  destruct (PandasAgentView_total _ Hpan) as (pv & Hpv).
  destruct (RAGAgentView_total _ Hrag) as (rv & Hrv).
  destruct (SynthesisView_total _ Hsyn) as (sv & Hsv).
  exists iv, pv, rv, sv. repeat split; try assumption.
  - intros Habs. rewrite (IngestionView_absent loc _ Habs) in Hiv. congruence.
  - intros Habs. rewrite (PandasAgentView_absent _ Habs) in Hpv. congruence.
  - intros Habs. rewrite (RAGAgentView_absent _ Habs) in Hrv. congruence.
  - intros Habs. rewrite (synthesis_of_nothing _ Habs) in Hsv.
    unfold synthesis_pending. congruence.
Qed.

Lemma views_return_on_renderable_witness :
  let model :=
    JObj [(lit "ingestion", JObj [(lit "row_count", JNum 120)]);
          (lit "pandas_agent",
           JArr [JObj [(lit "query", JStr (lit "monthly volume"))]; JObj []]);
          (lit "rag_agent", JStr (lit "n/a"))] in
  renderable model = true
  /\ (exists iv pv,
        IngestionView of_Z (prop model (lit "ingestion")) = Ok iv
        /\ PandasAgentView (prop model (lit "pandas_agent")) = Ok pv)
  /\ RAGAgentView (prop model (lit "rag_agent")) = Ok rag_placeholder
  /\ SynthesisView (prop model (lit "synthesis")) = Ok synthesis_pending.
Proof.
  cbv zeta.
  destruct (views_return_on_renderable of_Z
    (JObj [(lit "ingestion", JObj [(lit "row_count", JNum 120)]);
           (lit "pandas_agent",
            JArr [JObj [(lit "query", JStr (lit "monthly volume"))]; JObj []]);
           (lit "rag_agent", JStr (lit "n/a"))]) eq_refl)
    as (iv & pv & rv & sv & Hiv & Hpv & Hrv & Hsv & _ & _ & _ & _ & Hr & Hs).
  split; [reflexivity|]. split; [exists iv, pv; auto|].
  split.
  - rewrite Hrv. f_equal. apply Hr. left. reflexivity.
  - rewrite Hsv. f_equal. apply Hs. reflexivity.
Defined.

(** A returned analysis block, slot by slot, for any item. *)
Lemma analysis_step_inv item index b :
  analysis_step item index = Ok b ->
  nullish item = false
  /\ ab_key b = index
  /\ ab_number b = index + 1
  /\ ab_title b
     = or_else (prop item (lit "section"))
         (JStr (lit "Analysis Step " ++ of_nat (index + 1)))
  /\ ab_task b = prop item (lit "query")
  /\ ab_code b
     = or_else (prop item (lit "code")) (JStr (lit "# No code generated"))
  /\ ab_insight b = insight_block (prop item (lit "insight"))
  /\ (truthy (prop item (lit "image")) = false ->
      ab_plot b = NoPlot (lit "No visualization generated"))
  /\ (truthy (prop item (lit "image")) = true ->
      exists image section,
        to_string (prop item (lit "image")) = Ok image
        /\ to_string (prop item (lit "section")) = Ok section
        /\ ab_plot b
           = Image (lit "data:image/png;base64," ++ image)
               (lit "Plot for " ++ section)).
Proof.
  unfold analysis_step, get. destruct (nullish item); [discriminate|].
  cbn [bind]. destruct (truthy (prop item (lit "image"))) eqn:Et.
  - unfold append_text.
    destruct (to_string (prop item (lit "image"))) as [si|e]; cbn [bind];
      [|discriminate].
    destruct (to_string (prop item (lit "section"))) as [ss|e]; cbn [bind];
      [|discriminate].
    intros H; injection H as <-. cbn.
    repeat split; try discriminate. intros _. eauto.
  - cbn [bind]. intros H; injection H as <-. cbn.
    repeat split; try discriminate.
Qed.

Lemma research_step_inv item index b :
  research_step item index = Ok b ->
  nullish item = false
  /\ rb_key b = index
  /\ rb_number b = index + 1
  /\ rb_title b
     = or_else (prop item (lit "section"))
         (JStr (lit "Research Step " ++ of_nat (index + 1)))
  /\ rb_question b = prop item (lit "query")
  /\ rb_context b
     = or_else (prop item (lit "context")) (JStr (lit "No context found."))
  /\ rb_insight b = insight_block (prop item (lit "insight")).
Proof.
  unfold research_step, get. destruct (nullish item); [discriminate|].
  cbn [bind]. intros H; injection H as <-. cbn. repeat split.
Qed.

Lemma PandasAgentView_blocks items :
  items <> [] -> step_sequence (JArr items) = true ->
  exists blocks,
    PandasAgentView (JArr items) = Ok (AnalysisSteps blocks)
    /\ List.length blocks = List.length items
    /\ forall i item, nth_error items i = Some item ->
         exists b, nth_error blocks i = Some b /\ analysis_step item i = Ok b.
Proof.
  intros Hne H. destruct items as [|item items]; [congruence|].
  rewrite PandasAgentView_steps.
  destruct (mapM_index_each analysis_step
              (fun a i b => analysis_step a i = Ok b) step_item
              (item :: items)) with (start := 0) as (bs & -> & Hlen & Hnth).
  - intros a i Ha. destruct (analysis_step_item a i Ha) as (b & Hb & _). eauto.
  - exact H.
  - exists bs. cbn [bind]. auto.
Qed.

Lemma RAGAgentView_blocks items :
  items <> [] -> step_sequence (JArr items) = true ->
  exists blocks,
    RAGAgentView (JArr items) = Ok (ResearchSteps blocks)
    /\ List.length blocks = List.length items
    /\ forall i item, nth_error items i = Some item ->
         exists b, nth_error blocks i = Some b /\ research_step item i = Ok b.
Proof.
  intros Hne H. destruct items as [|item items]; [congruence|].
  rewrite RAGAgentView_steps.
  destruct (mapM_index_each research_step
              (fun a i b => research_step a i = Ok b) step_item
              (item :: items)) with (start := 0) as (bs & -> & Hlen & Hnth).
  - intros a i Ha. destruct (research_step_item a i Ha) as (b & Hb & _). eauto.
  - exact H.
  - exists bs. cbn [bind]. auto.
Qed.

Lemma step_sequence_nth items i item :
  step_sequence (JArr items) = true -> nth_error items i = Some item ->
  step_item item = true.
Proof.
  unfold step_sequence. cbn [elements]. intros H Hn.
  rewrite forallb_forall in H. apply H. eapply nth_error_In; eauto.
Qed.

(** Two runs of a step function on the same item give the same block. *)
Ltac same_block :=
  match goal with
  | H1 : ?f ?a ?i = Ok ?b, H2 : ?f ?a ?i = Ok ?b' |- _ =>
      assert (b' = b) by congruence; subst b'
  end.

Lemma or_else_falsy a b : truthy a = false -> or_else a b = b.
Proof. unfold or_else. intros ->. reflexivity. Qed.

Lemma or_else_truthy a b : truthy a = true -> or_else a b = a.
Proof. unfold or_else. intros ->. reflexivity. Qed.

(** C8. A non-empty step sequence is laid out one block per step, in
    order, numbered from 1; a step at index [i] whose [section] is absent
    (or empty) is titled "Analysis Step i+1" in the quantitative view and
    "Research Step i+1" in the qualitative view, and index 2 gives
    "Analysis Step 3". *)
Theorem steps_numbered_in_order (items : list value) :
  items <> [] ->
  step_sequence (JArr items) = true ->
  (exists blocks,
     PandasAgentView (JArr items) = Ok (AnalysisSteps blocks)
     /\ List.length blocks = List.length items
     /\ forall i item, nth_error items i = Some item ->
          exists b,
            nth_error blocks i = Some b
            /\ ab_number b = i + 1
            /\ ab_task b = prop item (lit "query")
            /\ (truthy (prop item (lit "section")) = true ->
                ab_title b = prop item (lit "section"))
            /\ (truthy (prop item (lit "section")) = false ->
                ab_title b = JStr (lit "Analysis Step " ++ of_nat (i + 1))))
  /\ (exists blocks,
        RAGAgentView (JArr items) = Ok (ResearchSteps blocks)
        /\ List.length blocks = List.length items
        /\ forall i item, nth_error items i = Some item ->
             exists b,
               nth_error blocks i = Some b
               /\ rb_number b = i + 1
               /\ rb_question b = prop item (lit "query")
               /\ (truthy (prop item (lit "section")) = true ->
                   rb_title b = prop item (lit "section"))
               /\ (truthy (prop item (lit "section")) = false ->
                   rb_title b = JStr (lit "Research Step " ++ of_nat (i + 1))))
  /\ lit "Analysis Step " ++ of_nat (2 + 1) = lit "Analysis Step 3".
Proof.
  intros Hne H. split; [|split; [|reflexivity]].
  - destruct (PandasAgentView_blocks items Hne H) as (blocks & Hv & Hlen & Hnth).
    exists blocks. split; [exact Hv|]. split; [exact Hlen|].
    intros i item Hi. destruct (Hnth i item Hi) as (b & Hb & Hstep).
    destruct (analysis_step_item item i (step_sequence_nth _ _ _ H Hi))
      as (b' & Hb' & _ & Hnum & Htitle & Htask & _).
    same_block.
    exists b. repeat split; try assumption.
    + intros Ht. rewrite Htitle. apply or_else_truthy, Ht.
    + intros Ht. rewrite Htitle. apply or_else_falsy, Ht.
  - destruct (RAGAgentView_blocks items Hne H) as (blocks & Hv & Hlen & Hnth).
    exists blocks. split; [exact Hv|]. split; [exact Hlen|].
    intros i item Hi. destruct (Hnth i item Hi) as (b & Hb & Hstep).
    destruct (research_step_item item i (step_sequence_nth _ _ _ H Hi))
      as (b' & Hb' & _ & Hnum & Htitle & Htask & _).
    same_block.
    exists b. repeat split; try assumption.
    + intros Ht. rewrite Htitle. apply or_else_truthy, Ht.
    + intros Ht. rewrite Htitle. apply or_else_falsy, Ht.
Qed.

Lemma steps_numbered_in_order_witness :
  let items :=
    [JObj [(lit "section", JStr (lit "Trend"))]; JObj [];
     JObj [(lit "query", JStr (lit "peak month"))]] in
  items <> []
  /\ step_sequence (JArr items) = true
  /\ exists blocks b,
       PandasAgentView (JArr items) = Ok (AnalysisSteps blocks)
       /\ nth_error blocks 2 = Some b
       /\ ab_title b = JStr (lit "Analysis Step 3")
       /\ ab_task b = JStr (lit "peak month").
Proof.
  cbv zeta.
  assert (Hne : [JObj [(lit "section", JStr (lit "Trend"))]; JObj [];
                 JObj [(lit "query", JStr (lit "peak month"))]] <> [])
    by discriminate.
  split; [exact Hne|]. split; [reflexivity|].
  destruct (steps_numbered_in_order _ Hne eq_refl)
    as ((blocks & Hv & _ & Hnth) & _).
  destruct (Hnth 2 (JObj [(lit "query", JStr (lit "peak month"))]) eq_refl)
    as (b & Hb & _ & Htask & _ & Htitle).
  exists blocks, b. split; [exact Hv|]. split; [exact Hb|].
  split; [apply Htitle; reflexivity | exact Htask].
Defined.

Lemma insight_block_shown v x :
  insight_block v = Shown x -> x = v /\ truthy v = true.
Proof.
  unfold insight_block. destruct (truthy v); [|discriminate].
  intros E; injection E as <-. auto.
Qed.

Lemma insight_block_hidden v : truthy v = false -> insight_block v = Hidden v.
Proof. unfold insight_block. intros ->. reflexivity. Qed.

(** C7. In every block of a step view, a [code] (quantitative) or
    [context] (qualitative) that is absent (or empty) is replaced by its
    placeholder text and an absent [image] by the "No visualization
    generated" placeholder, while an absent [insight] leaves no block: the
    slot holds the absent value itself, which puts nothing on the page,
    and the insight block appears only with a present, truthy [insight].
    A field that is present and truthy is what the block shows: the code
    or context itself, the image as an [img] whose source carries it
    (captioned with the section), and the insight in its block. *)
Theorem missing_evidence_flagged_insight_omitted (items : list value) :
  items <> [] ->
  step_sequence (JArr items) = true ->
  (exists blocks,
     PandasAgentView (JArr items) = Ok (AnalysisSteps blocks)
     /\ forall i item, nth_error items i = Some item ->
          exists b,
            nth_error blocks i = Some b
            /\ (truthy (prop item (lit "code")) = false ->
                ab_code b = JStr (lit "# No code generated"))
            /\ (truthy (prop item (lit "image")) = false ->
                ab_plot b = NoPlot (lit "No visualization generated"))
            /\ (truthy (prop item (lit "insight")) = false ->
                ab_insight b = Hidden (prop item (lit "insight")))
            /\ (prop item (lit "insight") = JUndefined ->
                ab_insight b = Hidden JUndefined
                /\ child_text JUndefined = [])
            /\ (forall x, ab_insight b = Shown x ->
                x = prop item (lit "insight") /\ truthy x = true)
            /\ (truthy (prop item (lit "code")) = true ->
                ab_code b = prop item (lit "code"))
            /\ (truthy (prop item (lit "image")) = true ->
                exists src alt,
                  ab_plot b = Image src alt
                  /\ (forall s, prop item (lit "image") = JStr s ->
                      src = lit "data:image/png;base64," ++ s)
                  /\ (forall s, prop item (lit "section") = JStr s ->
                      alt = lit "Plot for " ++ s))
            /\ (truthy (prop item (lit "insight")) = true ->
                ab_insight b = Shown (prop item (lit "insight"))))
  /\ (exists blocks,
        RAGAgentView (JArr items) = Ok (ResearchSteps blocks)
        /\ forall i item, nth_error items i = Some item ->
             exists b,
               nth_error blocks i = Some b
               /\ (truthy (prop item (lit "context")) = false ->
                   rb_context b = JStr (lit "No context found."))
               /\ (truthy (prop item (lit "insight")) = false ->
                   rb_insight b = Hidden (prop item (lit "insight")))
               /\ (prop item (lit "insight") = JUndefined ->
                   rb_insight b = Hidden JUndefined
                   /\ child_text JUndefined = [])
               /\ (forall x, rb_insight b = Shown x ->
                   x = prop item (lit "insight") /\ truthy x = true)
               /\ (truthy (prop item (lit "context")) = true ->
                   rb_context b = prop item (lit "context"))
               /\ (truthy (prop item (lit "insight")) = true ->
                   rb_insight b = Shown (prop item (lit "insight")))).
Proof.
  intros Hne H. split.
  - destruct (PandasAgentView_blocks items Hne H) as (blocks & Hv & _ & Hnth).
    exists blocks. split; [exact Hv|].
    intros i item Hi. destruct (Hnth i item Hi) as (b & Hb & Hstep).
    destruct (analysis_step_inv _ _ _ Hstep)
      as (_ & _ & _ & _ & _ & Hcode & Hins & Hnoplot & Himg).
    exists b. split; [exact Hb|].
    split; [intros Ht; rewrite Hcode; apply or_else_falsy, Ht|].
    split; [exact Hnoplot|].
    split; [intros Ht; rewrite Hins; apply insight_block_hidden, Ht|].
    split; [intros Ha; rewrite Hins, Ha; split; reflexivity|].
    split.
    { intros x Hx. rewrite Hins in Hx.
      destruct (insight_block_shown _ _ Hx) as [-> Ht]. auto. }
    split; [intros Ht; rewrite Hcode; apply or_else_truthy, Ht|].
    split.
    { intros Ht. destruct (Himg Ht) as (si & ss & Hsi & Hss & Hplot).
      eexists. eexists. split; [exact Hplot|]. split.
      - intros s Hs. rewrite Hs in Hsi. injection Hsi as <-. reflexivity.
      - intros s Hs. rewrite Hs in Hss. injection Hss as <-. reflexivity. }
    intros Ht. rewrite Hins. unfold insight_block. rewrite Ht. reflexivity.
  - destruct (RAGAgentView_blocks items Hne H) as (blocks & Hv & _ & Hnth).
    exists blocks. split; [exact Hv|].
    intros i item Hi. destruct (Hnth i item Hi) as (b & Hb & Hstep).
    destruct (research_step_inv _ _ _ Hstep)
      as (_ & _ & _ & _ & _ & Hctx & Hins).
    exists b. split; [exact Hb|].
    split; [intros Ht; rewrite Hctx; apply or_else_falsy, Ht|].
    split; [intros Ht; rewrite Hins; apply insight_block_hidden, Ht|].
    split; [intros Ha; rewrite Hins, Ha; split; reflexivity|].
    split.
    { intros x Hx. rewrite Hins in Hx.
      destruct (insight_block_shown _ _ Hx) as [-> Ht]. auto. }
    split; [intros Ht; rewrite Hctx; apply or_else_truthy, Ht|].
    intros Ht. rewrite Hins. unfold insight_block. rewrite Ht. reflexivity.
Qed.

Lemma missing_evidence_flagged_insight_omitted_witness :
  let bare := JObj [(lit "query", JStr (lit "sales by region"))] in
  let full :=
    JObj [(lit "section", JStr (lit "Sales"));
          (lit "code", JStr (lit "df.sum()"));
          (lit "image", JStr (lit "iVBORw0KGgo="));
          (lit "context", JStr (lit "EU fleet rules"));
          (lit "insight", JStr (lit "Up 4 percent"))] in
  let items := [bare; full] in
  items <> []
  /\ step_sequence (JArr items) = true
  /\ (exists blocks b c,
        PandasAgentView (JArr items) = Ok (AnalysisSteps blocks)
        /\ nth_error blocks 0 = Some b
        /\ ab_code b = JStr (lit "# No code generated")
        /\ ab_plot b = NoPlot (lit "No visualization generated")
        /\ ab_insight b = Hidden JUndefined
        /\ nth_error blocks 1 = Some c
        /\ ab_code c = JStr (lit "df.sum()")
        /\ ab_plot c = Image (lit "data:image/png;base64,iVBORw0KGgo=")
                         (lit "Plot for Sales")
        /\ ab_insight c = Shown (JStr (lit "Up 4 percent")))
  /\ (exists blocks b c,
        RAGAgentView (JArr items) = Ok (ResearchSteps blocks)
        /\ nth_error blocks 0 = Some b
        /\ rb_context b = JStr (lit "No context found.")
        /\ rb_insight b = Hidden JUndefined
        /\ nth_error blocks 1 = Some c
        /\ rb_context c = JStr (lit "EU fleet rules")
        /\ rb_insight c = Shown (JStr (lit "Up 4 percent"))).
Proof.
  cbv zeta.
  set (bare := JObj [(lit "query", JStr (lit "sales by region"))]).
  set (full := JObj [(lit "section", JStr (lit "Sales"));
                     (lit "code", JStr (lit "df.sum()"));
                     (lit "image", JStr (lit "iVBORw0KGgo="));
                     (lit "context", JStr (lit "EU fleet rules"));
                     (lit "insight", JStr (lit "Up 4 percent"))]).
  assert (Hne : [bare; full] <> []) by discriminate.
  split; [exact Hne|]. split; [reflexivity|].
  destruct (missing_evidence_flagged_insight_omitted [bare; full] Hne eq_refl)
    as ((pb & Hpv & Hp) & (rb & Hrv & Hr)).
  split.
  - destruct (Hp 0 bare eq_refl)
      as (b & Hb & Hcode & Hplot & _ & Hins & _).
    destruct (Hp 1 full eq_refl)
      as (c & Hc & _ & _ & _ & _ & _ & Hcode' & Himg & Hins').
    destruct (Himg eq_refl) as (src & alt & Hplot' & Hsrc & Halt).
    exists pb, b, c. split; [exact Hpv|]. split; [exact Hb|].
    split; [apply Hcode; reflexivity|].
    split; [apply Hplot; reflexivity|].
    split; [apply Hins; reflexivity|].
    split; [exact Hc|].
    split; [apply Hcode'; reflexivity|].
    split; [rewrite Hplot', (Hsrc _ eq_refl), (Halt _ eq_refl); reflexivity|].
    apply Hins'. reflexivity.
  - destruct (Hr 0 bare eq_refl) as (b & Hb & Hctx & _ & Hins & _).
    destruct (Hr 1 full eq_refl)
      as (c & Hc & _ & _ & _ & _ & Hctx' & Hins').
    exists rb, b, c. split; [exact Hrv|]. split; [exact Hb|].
    split; [apply Hctx; reflexivity|].
    split; [apply Hins; reflexivity|].
    split; [exact Hc|].
    split; [apply Hctx'; reflexivity|].
    apply Hins'. reflexivity.
Defined.

(** C9. For an ingestion record whose [columns] is an array, the view
    shows the first six entries, one chip each and no more; with more than
    six entries it adds the remainder indicator "+n more", n the number of
    entries beyond six, and with six or fewer it adds none. *)
Theorem ingestion_columns_capped (loc : Z -> jsstring) (data : value)
        (items : list value) :
  ingestion_record data = true ->
  opt_get data (lit "columns") = JArr items ->
  exists iv chips,
    IngestionView loc data = Ok iv
    /\ iv_columns iv = Some chips
    /\ map chip_text chips = firstn 6 items
    /\ List.length chips <= 6
    /\ (6 < List.length items ->
        exists children,
          iv_more iv = Shown children
          /\ children_text children
             = lit "+" ++ of_Z (Z.of_nat (List.length items - 6)) ++ lit " more")
    /\ (List.length items <= 6 -> iv_more iv = Hidden (JBool false)).
Proof.
  intros Hrec Hcols.
  destruct (IngestionView_record loc data Hrec) as (iv & Hiv & _ & _ & H).
  rewrite Hcols in H. destruct H as ((chips & Hchips & Htext) & Hmore).
  exists iv, chips. split; [exact Hiv|]. split; [exact Hchips|].
  split; [exact Htext|]. split; [|split].
  - rewrite <- (length_map chip_text), Htext. apply firstn_le_length.
  - intros Hlen. rewrite Hmore.
    destruct (Z.ltb_spec 6 (Z.of_nat (List.length items))) as [_|]; [|lia].
    eexists. split; [reflexivity|].
    unfold children_text. cbn [map child_text List.concat].
    rewrite app_nil_r.
    replace (Z.of_nat (List.length items) - 6)%Z
      with (Z.of_nat (List.length items - 6)) by lia.
    reflexivity.
  - intros Hlen. rewrite Hmore.
    destruct (Z.ltb_spec 6 (Z.of_nat (List.length items))) as [|_]; [lia|].
    reflexivity.
Qed.

Lemma ingestion_columns_capped_witness :
  let columns :=
    map (fun s => JStr (lit s))
      ["Year"; "Month"; "Region"; "Model"; "Fuel"; "Units"; "Price";
       "Revenue"; "Segment"]%string in
  let data := JObj [(lit "columns", JArr columns)] in
  ingestion_record data = true
  /\ opt_get data (lit "columns") = JArr columns
  /\ exists iv chips children,
       IngestionView of_Z data = Ok iv
       /\ iv_columns iv = Some chips
       /\ map chip_text chips
          = map (fun s => JStr (lit s))
              ["Year"; "Month"; "Region"; "Model"; "Fuel"; "Units"]%string
       /\ iv_more iv = Shown children
       /\ children_text children = lit "+3 more".
Proof.
  cbv zeta.
  split; [reflexivity|]. split; [reflexivity|].
  destruct (ingestion_columns_capped of_Z
              (JObj [(lit "columns",
                      JArr (map (fun s => JStr (lit s))
                        ["Year"; "Month"; "Region"; "Model"; "Fuel"; "Units";
                         "Price"; "Revenue"; "Segment"]%string))])
              _ eq_refl eq_refl)
    as (iv & chips & Hiv & Hchips & Htext & _ & Hmore & _).
  destruct Hmore as (children & Hm & Ht); [simpl; lia|].
  exists iv, chips, children. repeat split; assumption.
Defined.

(** C6: the counter on the tab label reads [length] off whatever the
    field holds. For the string ["abc"] the label shows 3 while the view
    shows its placeholder. *)
Theorem counter_shows_length_of_a_string (string_gt : jsstring -> Z -> bool) :
  tab_counters string_gt pandas (JObj [(lit "pandas_agent", JStr (lit "abc"))])
  = Ok (Shown (JNum 3), Hidden (JBool false))
  /\ PandasAgentView (JStr (lit "abc")) = Ok pandas_placeholder
  /\ tab_counters string_gt rag (JObj [(lit "rag_agent", JStr (lit "abc"))])
     = Ok (Hidden (JBool false), Shown (JNum 3))
  /\ RAGAgentView (JStr (lit "abc")) = Ok rag_placeholder.
Proof. repeat split. Qed.

(** Where the counter and the view agree: an absent field and an empty
    array show no counter, a non-empty array shows its length. *)
Lemma counter_of_sequence (string_gt : jsstring -> Z -> bool) data agent :
  (nullish (opt_get data agent) = true ->
   counter string_gt true data agent = Ok (Hidden (JBool false)))
  /\ (forall items, opt_get data agent = JArr items ->
      counter string_gt true data agent
      = Ok (match items with
            | [] => Hidden (JBool false)
            | _ => Shown (JNum (Z.of_nat (List.length items)))
            end)).
Proof.
  unfold counter. split.
  - intros H. destruct (opt_get data agent); try discriminate; reflexivity.
  - intros items ->. destruct items as [|item items]; [reflexivity|].
    cbn [opt_get nullish prop]. cbn [JsString.eqb]. 
    change (JsString.eqb (lit "length") (lit "length")) with true.
    cbn [gt bind].
    destruct (Z.ltb_spec 0 (Z.of_nat (List.length (item :: items))))
      as [_|Hl]; [reflexivity|].
    simpl in Hl. lia.
Qed.

(* ===================================================================== *)
(** ** Further properties of the request lifecycle *)
(* ===================================================================== *)

Import Session Raises.

Lemma to_string_joins items : to_string (JArr items) = join_text items.
Proof. reflexivity. Qed.

(** ToString raises one error only. *)
Lemma to_string_throws : forall v e, to_string v = Throw e -> e = cannot_convert.
Proof.
  fix IH 1. intros v e.
  destruct v as [| | b | z | s | items | fields]; try discriminate.
  - rewrite to_string_joins. revert e.
    induction items as [|x rest IHrest]; intros e; [discriminate|].
    cbn [join_text].
    destruct (element_text x) as [t|e'] eqn:Ex; cbn [bind].
    + destruct rest as [|y rest']; [discriminate|].
      destruct (join_text (y :: rest')) as [r|e''] eqn:Er; cbn [bind];
        [discriminate|].
      intros H; injection H as <-. exact (IHrest e'' eq_refl).
    + intros H; injection H as <-.
      pose proof (IH x e') as IHx.
      destruct x; try discriminate; exact (IHx Ex).
  - simpl. destruct (has_own fields (lit "toString")); [|discriminate].
    intros H; injection H as <-. reflexivity.
Qed.

(** X1. Whatever the earlier state and whatever the promises settle to,
    [handleGenerate] ends with the spinner off and the instructions text
    untouched, and in one of two ways: nothing is kept, the message of
    what was thrown is the error and the tab has not moved; or the parsed
    body itself, not [null] and with a falsy [error], is the result, no
    error is set and the tab is [synthesis]. *)
Theorem request_ends_one_of_two_ways (st : state) (o : settled) :
  let st' := handleGenerate st o in
  loading st' = false
  /\ instructions st' = instructions st
  /\ ((exists e,
         awaited o = Throw e
         /\ data st' = JNull
         /\ error st' = JStr (message e)
         /\ activeTab st' = activeTab st)
      \/ (o = Parsed (data st')
          /\ nullish (data st') = false
          /\ truthy (prop (data st') (lit "error")) = false
          /\ error st' = JNull
          /\ activeTab st' = synthesis)).
Proof.
  cbv zeta. unfold handleGenerate, resolve.
  destruct o as [e | r].
  - cbn. split; [reflexivity|]. split; [reflexivity|]. left. exists e. auto.
  - unfold awaited, get. destruct (nullish r) eqn:En; cbn [bind].
    + cbn. split; [reflexivity|]. split; [reflexivity|]. left.
      eexists. repeat split.
    + destruct (truthy (prop r (lit "error"))) eqn:Et.
      * destruct (to_string (prop r (lit "error"))) as [m|e]; cbn;
          (split; [reflexivity|]); (split; [reflexivity|]); left;
          eexists; repeat split.
      * cbn. split; [reflexivity|]. split; [reflexivity|]. right.
        repeat split; assumption.
Qed.

(** X2. A truthy [error] fails the request whatever it holds (a string,
    [true], a number, an array or an object): nothing is kept, the tab
    does not move and the error cell holds a string, shown in the banner
    unless it is empty (as for an array without elements, which leaves
    the page idle). That string is the text of the value when every
    number in it is a safe integer, and the message of the TypeError when
    the value cannot be converted. *)
Theorem truthy_error_fails (st : state) (r : value) :
  nullish r = false ->
  truthy (prop r (lit "error")) = true ->
  let st' := handleGenerate st (Parsed r) in
  data st' = JNull
  /\ activeTab st' = activeTab st
  /\ (exists m,
        error st' = JStr m
        /\ (m <> [] ->
            lifecycle_of st' = Failed (JStr m)
            /\ error_banner st' = Shown (JStr m))
        /\ (m = [] ->
            lifecycle_of st' = Idle /\ error_banner st' = Hidden (JStr [])))
  /\ (forall m, exact_text (prop r (lit "error")) = true ->
      to_string (prop r (lit "error")) = Ok m ->
      error st' = JStr m)
  /\ (forall e, to_string (prop r (lit "error")) = Throw e ->
      exists m, e = TypeError m /\ error st' = JStr m).
Proof.
  intros Hn Ht. cbv zeta. unfold handleGenerate, resolve, awaited, get.
  rewrite Hn. cbn [bind]. rewrite Ht.
  destruct (to_string (prop r (lit "error"))) as [m|e] eqn:Es; cbn [bind].
  - split; [reflexivity|]. split; [reflexivity|]. split; [|split].
    + exists m. split; [reflexivity|]. split.
      * intros Hm. destruct m; [congruence|]. split; reflexivity.
      * intros ->. split; reflexivity.
    + intros m' _ H; injection H as <-. reflexivity.
    + discriminate.
  - rewrite (to_string_throws _ _ Es).
    split; [reflexivity|]. split; [reflexivity|]. split; [|split].
    + eexists. split; [reflexivity|]. split.
      * intros _. split; reflexivity.
      * discriminate.
    + discriminate.
    + intros e' H; injection H as <-. eexists. split; reflexivity.
Qed.

Lemma truthy_error_fails_witness :
  let quiet := JObj [(lit "error", JArr [])] in
  let coded := JObj [(lit "error", JNum 503)] in
  let opaque := JObj [(lit "error", JObj [(lit "toString", JNull)])] in
  nullish quiet = false
  /\ truthy (prop quiet (lit "error")) = true
  /\ lifecycle_of (handleGenerate initial (Parsed quiet)) = Idle
  /\ exact_text (prop coded (lit "error")) = true
  /\ lifecycle_of (handleGenerate initial (Parsed coded))
     = Failed (JStr (lit "503"))
  /\ exists m,
       lifecycle_of (handleGenerate initial (Parsed opaque)) = Failed (JStr m).
Proof.
  cbv zeta.
  destruct (truthy_error_fails initial (JObj [(lit "error", JArr [])])
              eq_refl eq_refl) as (_ & _ & (q & Hq & _ & Hidle) & Hqt & _).
  destruct (truthy_error_fails initial (JObj [(lit "error", JNum 503)])
              eq_refl eq_refl) as (_ & _ & (c & Hc & Hfail & _) & Hct & _).
  destruct (truthy_error_fails initial
              (JObj [(lit "error", JObj [(lit "toString", JNull)])])
              eq_refl eq_refl) as (_ & _ & (o & Ho & Hofail & _) & _ & Hot).
  split; [reflexivity|]. split; [reflexivity|]. split; [|split; [reflexivity|split]].
  - apply Hidle. rewrite (Hqt [] eq_refl eq_refl) in Hq. congruence.
  - rewrite (Hct (lit "503") eq_refl eq_refl) in Hc.
    assert (E : c = lit "503") by congruence.
    rewrite E in Hfail. apply Hfail. discriminate.
  - destruct (Hot _ eq_refl) as (m & Hm & Hem).
    exists o. apply Hofail. rewrite Hem in Ho.
    assert (E : o = m) by congruence.
    assert (E' : m = lit "Cannot convert object to primitive value")
      by (unfold cannot_convert in Hm; congruence).
    rewrite E, E'. discriminate.
Defined.

Lemma opened_consistent : consistent opened.
Proof.
  unfold consistent, opened. cbn. repeat split; auto; try discriminate.
Qed.

Lemma awaited_ok_inv o r :
  awaited o = Ok r ->
  o = Parsed r /\ nullish r = false
  /\ truthy (prop r (lit "error")) = false.
Proof.
  destruct o as [e|r']; [discriminate|]. unfold awaited, get.
  destruct (nullish r') eqn:En; [discriminate|]. cbn [bind].
  destruct (truthy (prop r' (lit "error"))) eqn:Et.
  - destruct (to_string (prop r' (lit "error"))); discriminate.
  - intros H; injection H as <-. auto.
Qed.

Lemma step_consistent p e : consistent p -> consistent (step p e).
Proof.
  intros (Hlen & Hload & Hclear & Hone & Herr & Hres).
  destruct e as [t | text | | | o]; cbn [step].
  - unfold consistent. cbn. tauto.
  - unfold consistent. cbn. tauto.
  - unfold consistent. cbn. tauto.
  - destruct (loading (ui p)) eqn:El.
    + unfold consistent. rewrite El. tauto.
    + assert (Hnil : in_flight p = []).
      { destruct (in_flight p) as [|rq l]; [reflexivity|].
        assert (false = true) by (apply Hload; discriminate).
        discriminate. }
      unfold consistent. cbn. rewrite Hnil. cbn.
      repeat split; auto; try discriminate.
  - destruct (in_flight p) as [|rq rest] eqn:Ef.
    + unfold consistent. rewrite Ef. tauto.
    + assert (Hl : loading (ui p) = true) by (apply Hload; discriminate).
      destruct (Hclear Hl) as [Hd He].
      assert (Hrest : rest = []) by (destruct rest; [reflexivity | simpl in Hlen; lia]).
      subst rest. unfold consistent, resolve. cbn.
      destruct (awaited o) as [r|err] eqn:Eo; cbn; rewrite ?Hd, ?He;
        repeat split; eauto; try discriminate; try congruence.
      right. destruct (awaited_ok_inv _ _ Eo) as (_ & Hn & Ht). auto.
Qed.

Lemma run_from_consistent events p :
  consistent p -> consistent (fold_left step events p).
Proof.
  revert p. induction events as [|e events IH]; intros p Hp; [exact Hp|].
  cbn [fold_left]. apply IH, step_consistent, Hp.
Qed.

(** X3. After any sequence of tab selections, typing, sample prompts,
    clicks on the generate button (which does nothing while [loading]) and
    settlements, at most one request is in flight, the spinner is on
    exactly while one is, result and error are both clear while it is on,
    result and error are never both set, the error is [null] or a string,
    a result that is kept is a parsed body with a falsy [error], and an
    error banner never shares the page with results or the spinner. *)
Theorem page_stays_consistent (loc : Z -> jsstring) (events : list event) :
  let p := run events in
  List.length (in_flight p) <= 1
  /\ (loading (ui p) = true <-> in_flight p <> [])
  /\ (loading (ui p) = true -> data (ui p) = JNull /\ error (ui p) = JNull)
  /\ (data (ui p) = JNull \/ error (ui p) = JNull)
  /\ (error (ui p) = JNull \/ exists m, error (ui p) = JStr m)
  /\ (data (ui p) = JNull
      \/ (nullish (data (ui p)) = false
          /\ truthy (prop (data (ui p)) (lit "error")) = false))
  /\ (forall b, error_banner (ui p) = Shown b ->
      main_content loc (ui p) = Ok Awaiting).
Proof.
  cbv zeta.
  pose proof (run_from_consistent events opened opened_consistent) as H.
  fold (run events) in H.
  destruct H as (Hlen & Hload & Hclear & Hone & Herr & Hres).
  repeat split; try assumption; try (apply Hload); try (apply Hclear; assumption).
  intros b Hb. unfold error_banner in Hb.
  destruct (truthy (error (ui (run events)))) eqn:Et; [|discriminate].
  unfold main_content.
  destruct (loading (ui (run events))) eqn:El.
  - destruct (Hclear eq_refl) as [_ He]. rewrite He in Et. discriminate.
  - destruct Hone as [Hd | He].
    + rewrite Hd. reflexivity.
    + rewrite He in Et. discriminate.
Qed.

Lemma page_stays_consistent_witness :
  let events :=
    [TypeText (lit " growth "); ClickGenerate; ClickGenerate; SelectTab rag;
     Settle (Parsed (JObj [(lit "error", JStr (lit "no data"))]))] in
  in_flight (run [TypeText (lit " growth "); ClickGenerate; ClickGenerate])
  = [snd (start (setInstructions (lit " growth ") initial))]
  /\ error_banner (ui (run events)) = Shown (JStr (lit "no data"))
  /\ main_content of_Z (ui (run events)) = Ok Awaiting.
Proof.
  cbv zeta. split; [reflexivity|]. split; [reflexivity|].
  destruct (page_stays_consistent of_Z
    [TypeText (lit " growth "); ClickGenerate; ClickGenerate; SelectTab rag;
     Settle (Parsed (JObj [(lit "error", JStr (lit "no data"))]))])
    as (_ & _ & _ & _ & _ & _ & H).
  apply (H (JStr (lit "no data"))). reflexivity.
Defined.

(** *** White space around the instructions *)

Lemma trim_start_app_blank pre s :
  forallb is_trimmed pre = true -> trim_start (pre ++ s) = trim_start s.
Proof.
  induction pre as [|c pre IH]; [reflexivity|].
  simpl. intros H. apply andb_prop in H as [Hc Hp]. rewrite Hc. auto.
Qed.

Lemma trim_start_app s x :
  trim_start s <> [] -> trim_start (s ++ x) = trim_start s ++ x.
Proof.
  induction s as [|c s IH]; simpl; [congruence|].
  destruct (is_trimmed c); [exact IH | reflexivity].
Qed.

Lemma trim_end_app_blank s post :
  forallb is_trimmed post = true -> trim_end (s ++ post) = trim_end s.
Proof.
  intros H. unfold trim_end. rewrite rev_app_distr.
  rewrite trim_start_app_blank by (rewrite forallb_rev; exact H).
  reflexivity.
Qed.

Lemma trim_start_all_blank s :
  trim_start s = [] -> forallb is_trimmed s = true.
Proof.
  induction s as [|c s IH]; simpl; [reflexivity|].
  destruct (is_trimmed c); [exact IH | discriminate].
Qed.

(** White space around a text does not change what [trim] returns. *)
Lemma trim_ignores_margins pre s post :
  forallb is_trimmed pre = true -> forallb is_trimmed post = true ->
  trim (pre ++ s ++ post) = trim s.
Proof.
  intros Hpre Hpost. unfold trim.
  rewrite trim_start_app_blank by exact Hpre.
  destruct (trim_start s) as [|c t] eqn:Es.
  - rewrite trim_start_app_blank by (apply trim_start_all_blank, Es).
    rewrite (trim_start_blank _ Hpost). reflexivity.
  - rewrite trim_start_app by (rewrite Es; discriminate).
    rewrite Es. apply trim_end_app_blank, Hpost.
Qed.

Lemma trim_idempotent s : trim (trim s) = trim s.
Proof.
  destruct (trim_split s) as (pre & post & Hs & Hpre & Hpost).
  rewrite Hs at 2. symmetry. apply trim_ignores_margins; assumption.
Qed.

(** X4. White space around the instructions never reaches the server: a
    text and the same text with white space or line breaks before and
    after it give the same request, and so does the text already
    trimmed. *)
Theorem request_ignores_margins (st : state) (t pre post : jsstring) :
  forallb is_trimmed pre = true ->
  forallb is_trimmed post = true ->
  snd (start (setInstructions (pre ++ t ++ post) st))
  = snd (start (setInstructions t st))
  /\ snd (start (setInstructions (trim t) st))
     = snd (start (setInstructions t st)).
Proof.
  intros Hpre Hpost. unfold start. cbn [snd setInstructions instructions].
  rewrite (trim_ignores_margins _ _ _ Hpre Hpost), trim_idempotent.
  split; reflexivity.
Qed.

Lemma request_ignores_margins_witness :
  forallb is_trimmed [9; 32]%N = true
  /\ forallb is_trimmed [13; 10]%N = true
  /\ snd (start (setInstructions ([9; 32]%N ++ lit "SUV trend" ++ [13; 10]%N)
                   initial))
     = snd (start (setInstructions (lit "SUV trend") initial)).
Proof.
  split; [reflexivity|]. split; [reflexivity|].
  exact (proj1 (request_ignores_margins initial (lit "SUV trend")
                  [9; 32]%N [13; 10]%N eq_refl eq_refl)).
Defined.

(* ===================================================================== *)
(** ** Further properties of the views *)
(* ===================================================================== *)

(** What a returned [array.map] holds: one result per element, each the
    callback's result at that element and index. *)
Lemma mapM_index_inv {A B} (f : A -> nat -> result B) l :
  forall start bs,
    mapM_index f l start = Ok bs ->
    List.length bs = List.length l
    /\ forall i b, nth_error bs i = Some b ->
         exists a, nth_error l i = Some a /\ f a (start + i) = Ok b.
Proof.
  induction l as [|a l IH]; intros start bs; simpl.
  - intros H; injection H as <-. split; [reflexivity|].
    intros [|i] b; discriminate.
  - destruct (f a start) as [b0|e] eqn:Ea; cbn [bind]; [|discriminate].
    destruct (mapM_index f l (S start)) as [bs0|e] eqn:Er; cbn [bind];
      [|discriminate].
    intros H; injection H as <-.
    destruct (IH _ _ Er) as (Hlen & Hnth).
    split; [simpl; congruence|].
    intros [|i] b; simpl.
    + intros E; injection E as <-. exists a. rewrite Nat.add_0_r. auto.
    + intros E. destruct (Hnth i b E) as (a' & Ha' & Hf).
      exists a'. rewrite <- plus_n_Sm. auto.
Qed.

(** [array.map] raises what the callback raises at the first element on
    which it raises, and returns when there is none. *)
Lemma mapM_index_first_bad {A B} (f : A -> nat -> result B)
      (bad : A -> bool) (err : A -> exn) :
  (forall a i, bad a = true -> f a i = Throw (err a)) ->
  (forall a i, bad a = false -> exists b, f a i = Ok b) ->
  forall l start,
    match find bad l with
    | Some a => mapM_index f l start = Throw (err a)
    | None => exists bs, mapM_index f l start = Ok bs
    end.
Proof.
  intros Hbad Hgood. induction l as [|a l IH]; intros start; simpl.
  - eauto.
  - destruct (bad a) eqn:Ea.
    + rewrite (Hbad a start Ea). reflexivity.
    + destruct (Hgood a start Ea) as (b & ->). cbn [bind].
      specialize (IH (S start)). destruct (find bad l) as [a'|].
      * rewrite IH. reflexivity.
      * destruct IH as (bs & ->). cbn [bind]. eauto.
Qed.

Lemma research_step_null item index :
  nullish item = true ->
  research_step item index = Throw (cannot_read item (lit "section")).
Proof. intros H. unfold research_step, get. rewrite H. reflexivity. Qed.

Lemma research_step_returns item index :
  nullish item = false -> exists b, research_step item index = Ok b.
Proof.
  intros H. unfold research_step, get. rewrite H. cbn [bind]. eauto.
Qed.

(** X5. [RAGAgentView] raises exactly when its data is an array that holds
    [null]: the error is the TypeError for reading [section] of the first
    such item; on every other value, whatever the types of the fields, it
    returns. *)
Theorem RAGAgentView_raises_on_null_items (d : value) :
  (forall item, find nullish (elements d) = Some item ->
   RAGAgentView d = Throw (cannot_read item (lit "section")))
  /\ (find nullish (elements d) = None -> exists v, RAGAgentView d = Ok v).
Proof.
  pose proof (mapM_index_first_bad research_step nullish
                (fun a => cannot_read a (lit "section"))
                research_step_null research_step_returns) as H.
  destruct d as [| | | | | [|item items] |];
    try (split; [discriminate | intros _; eexists;
                 apply RAGAgentView_absent; auto; fail]).
  specialize (H (item :: items) 0). rewrite RAGAgentView_steps.
  cbn [elements].
  destruct (find nullish (item :: items)) as [a|].
  - split; [|discriminate]. intros x E; injection E as <-.
    rewrite H. reflexivity.
  - split; [discriminate|]. intros _. destruct H as (bs & ->).
    cbn [bind]. eauto.
Qed.

Lemma RAGAgentView_raises_on_null_items_witness :
  find nullish (elements (JArr [JNum 7; JNull; JObj []])) = Some JNull
  /\ RAGAgentView (JArr [JNum 7; JNull; JObj []])
     = Throw (cannot_read JNull (lit "section"))
  /\ find nullish (elements (JArr [JNum 7; JArr [JObj []]])) = None
  /\ exists v, RAGAgentView (JArr [JNum 7; JArr [JObj []]]) = Ok v.
Proof.
  split; [reflexivity|]. split.
  - apply (proj1 (RAGAgentView_raises_on_null_items
                    (JArr [JNum 7; JNull; JObj []]))). reflexivity.
  - split; [reflexivity|].
    apply (proj2 (RAGAgentView_raises_on_null_items
                    (JArr [JNum 7; JArr [JObj []]]))). reflexivity.
Defined.

Lemma printable_ok v : printable v = true -> exists s, to_string v = Ok s.
Proof. unfold printable. destruct (to_string v); [eauto | discriminate]. Qed.

Lemma printable_throws v :
  printable v = false -> to_string v = Throw cannot_convert.
Proof.
  unfold printable. destruct (to_string v) as [s|e] eqn:E; [discriminate|].
  intros _. rewrite (to_string_throws _ _ E). reflexivity.
Qed.

Lemma analysis_step_breaks item index :
  breaks_analysis item = true ->
  analysis_step item index = Throw (analysis_error item).
Proof.
  unfold breaks_analysis, analysis_error, analysis_step, get.
  destruct (nullish item); [reflexivity|]. cbn [orb bind].
  intros H. apply andb_prop in H as [Ht Hp]. rewrite Ht.
  apply negb_true_iff, andb_false_iff in Hp. unfold append_text.
  destruct (printable (prop item (lit "image"))) eqn:Ei.
  - destruct Hp as [Hp|Hp]; [discriminate|].
    destruct (printable_ok _ Ei) as (s & ->). cbn [bind].
    rewrite (printable_throws _ Hp). reflexivity.
  - rewrite (printable_throws _ Ei). reflexivity.
Qed.

Lemma analysis_step_returns item index :
  breaks_analysis item = false -> exists b, analysis_step item index = Ok b.
Proof.
  unfold breaks_analysis, analysis_step, get.
  destruct (nullish item); [discriminate|]. cbn [orb bind].
  destruct (truthy (prop item (lit "image"))); cbn [andb bind]; [|eauto].
  intros H. apply negb_false_iff, andb_prop in H as [Hi Hs].
  destruct (printable_ok _ Hi) as (si & Hsi).
  destruct (printable_ok _ Hs) as (ss & Hss).
  unfold append_text. rewrite Hsi, Hss. cbn [bind]. eauto.
Qed.

(** X6. [PandasAgentView] raises exactly when its data is an array holding
    an item that is [null], or that has an image while its [image] or its
    [section] cannot be converted to a string; the error is that of the
    first such item. On every other value it returns. *)
Theorem PandasAgentView_raises_on_first_bad_item (d : value) :
  (forall item, find breaks_analysis (elements d) = Some item ->
   PandasAgentView d
   = Throw (if nullish item then cannot_read item (lit "section")
            else cannot_convert))
  /\ (find breaks_analysis (elements d) = None ->
      exists v, PandasAgentView d = Ok v).
Proof.
  pose proof (mapM_index_first_bad analysis_step breaks_analysis
                analysis_error analysis_step_breaks analysis_step_returns)
    as H.
  destruct d as [| | | | | [|item items] |];
    try (split; [discriminate | intros _; eexists;
                 apply PandasAgentView_absent; auto; fail]).
  specialize (H (item :: items) 0). rewrite PandasAgentView_steps.
  cbn [elements].
  destruct (find breaks_analysis (item :: items)) as [a|].
  - split; [|discriminate]. intros x E; injection E as <-.
    rewrite H. reflexivity.
  - split; [discriminate|]. intros _. destruct H as (bs & ->).
    cbn [bind]. eauto.
Qed.

Lemma PandasAgentView_raises_on_first_bad_item_witness :
  let broken :=
    JObj [(lit "image", JStr (lit "iVBOR"));
          (lit "section", JObj [(lit "toString", JNull)])] in
  find breaks_analysis (elements (JArr [JObj []; broken; JNull]))
  = Some broken
  /\ PandasAgentView (JArr [JObj []; broken; JNull]) = Throw cannot_convert
  /\ find breaks_analysis
       (elements (JArr [JObj [(lit "section", JObj [])]; JNum 1])) = None
  /\ exists v,
       PandasAgentView (JArr [JObj [(lit "section", JObj [])]; JNum 1]) = Ok v.
Proof.
  cbv zeta. split; [reflexivity|]. split.
  - exact (proj1 (PandasAgentView_raises_on_first_bad_item
                    (JArr [JObj [];
                           JObj [(lit "image", JStr (lit "iVBOR"));
                                 (lit "section", JObj [(lit "toString", JNull)])];
                           JNull])) _ eq_refl).
  - split; [reflexivity|].
    exact (proj2 (PandasAgentView_raises_on_first_bad_item
                    (JArr [JObj [(lit "section", JObj [])]; JNum 1])) eq_refl).
Defined.

Lemma PandasAgentView_blocks_inv d blocks :
  PandasAgentView d = Ok (AnalysisSteps blocks) ->
  List.length blocks = List.length (elements d)
  /\ forall i b, nth_error blocks i = Some b ->
       exists item,
         nth_error (elements d) i = Some item /\ analysis_step item i = Ok b.
Proof.
  unfold PandasAgentView.
  destruct (negb (truthy d) || negb (isArray d)
            || Nat.eqb (List.length (elements d)) 0); [discriminate|].
  destruct (mapM_index analysis_step (elements d) 0) as [bs|e] eqn:E;
    cbn [bind]; [|discriminate].
  intros H; injection H as <-. exact (mapM_index_inv _ _ _ _ E).
Qed.

Lemma RAGAgentView_blocks_inv d blocks :
  RAGAgentView d = Ok (ResearchSteps blocks) ->
  List.length blocks = List.length (elements d)
  /\ forall i b, nth_error blocks i = Some b ->
       exists item,
         nth_error (elements d) i = Some item /\ research_step item i = Ok b.
Proof.
  unfold RAGAgentView.
  destruct (negb (truthy d) || negb (isArray d)
            || Nat.eqb (List.length (elements d)) 0); [discriminate|].
  destruct (mapM_index research_step (elements d) 0) as [bs|e] eqn:E;
    cbn [bind]; [|discriminate].
  intros H; injection H as <-. exact (mapM_index_inv _ _ _ _ E).
Qed.

Lemma mapM_index_by_index {A B C} (f : A -> nat -> result B) (g : B -> C)
      (k : nat -> C) :
  (forall a i b, f a i = Ok b -> g b = k i) ->
  forall l start bs,
    mapM_index f l start = Ok bs ->
    map g bs = map k (seq start (List.length l)).
Proof.
  intros Hg. induction l as [|a l IH]; intros start bs; simpl.
  - intros H; injection H as <-. reflexivity.
  - destruct (f a start) as [b|e] eqn:Ea; cbn [bind]; [|discriminate].
    destruct (mapM_index f l (S start)) as [bs0|e] eqn:Er; cbn [bind];
      [|discriminate].
    intros H; injection H as <-. simpl.
    rewrite (Hg _ _ _ Ea), (IH _ _ Er). reflexivity.
Qed.

Lemma mapM_index_by_item {A B C} (f : A -> nat -> result B) (g : B -> C)
      (h : A -> C) :
  (forall a i b, f a i = Ok b -> g b = h a) ->
  forall l start bs,
    mapM_index f l start = Ok bs -> map g bs = map h l.
Proof.
  intros Hg. induction l as [|a l IH]; intros start bs; simpl.
  - intros H; injection H as <-. reflexivity.
  - destruct (f a start) as [b|e] eqn:Ea; cbn [bind]; [|discriminate].
    destruct (mapM_index f l (S start)) as [bs0|e] eqn:Er; cbn [bind];
      [|discriminate].
    intros H; injection H as <-. simpl.
    rewrite (Hg _ _ _ Ea), (IH _ _ Er). reflexivity.
Qed.

Lemma PandasAgentView_mapM d blocks :
  PandasAgentView d = Ok (AnalysisSteps blocks) ->
  mapM_index analysis_step (elements d) 0 = Ok blocks.
Proof.
  unfold PandasAgentView.
  destruct (negb (truthy d) || negb (isArray d)
            || Nat.eqb (List.length (elements d)) 0); [discriminate|].
  destruct (mapM_index analysis_step (elements d) 0) as [bs|e];
    cbn [bind]; [|discriminate].
  intros H; injection H as <-. reflexivity.
Qed.

Lemma RAGAgentView_mapM d blocks :
  RAGAgentView d = Ok (ResearchSteps blocks) ->
  mapM_index research_step (elements d) 0 = Ok blocks.
Proof.
  unfold RAGAgentView.
  destruct (negb (truthy d) || negb (isArray d)
            || Nat.eqb (List.length (elements d)) 0); [discriminate|].
  destruct (mapM_index research_step (elements d) 0) as [bs|e];
    cbn [bind]; [|discriminate].
  intros H; injection H as <-. reflexivity.
Qed.

(** X9. In every step view that is returned, whatever the items hold, the
    blocks follow the items one for one: their React keys are 0, 1, ...,
    n-1 (so no two blocks share a key), their numbers 1, ..., n, and
    their queries are the items' queries in the order received. *)
Theorem blocks_follow_items (d : value) :
  (forall blocks, PandasAgentView d = Ok (AnalysisSteps blocks) ->
     map ab_key blocks = seq 0 (List.length (elements d))
     /\ NoDup (map ab_key blocks)
     /\ map ab_number blocks = seq 1 (List.length (elements d))
     /\ map ab_task blocks
        = map (fun item => prop item (lit "query")) (elements d))
  /\ (forall blocks, RAGAgentView d = Ok (ResearchSteps blocks) ->
        map rb_key blocks = seq 0 (List.length (elements d))
        /\ NoDup (map rb_key blocks)
        /\ map rb_number blocks = seq 1 (List.length (elements d))
        /\ map rb_question blocks
           = map (fun item => prop item (lit "query")) (elements d)).
Proof.
  split; intros blocks H.
  - apply PandasAgentView_mapM in H.
    assert (Hk : map ab_key blocks = seq 0 (List.length (elements d))).
    { rewrite (mapM_index_by_index analysis_step ab_key (fun i => i)
                 (fun a i b E => proj1 (proj2 (analysis_step_inv a i b E)))
                 _ _ _ H).
      apply map_id. }
    split; [exact Hk|]. split; [rewrite Hk; apply seq_NoDup|]. split.
    + rewrite (mapM_index_by_index analysis_step ab_number (fun i => i + 1)
                 (fun a i b E =>
                    proj1 (proj2 (proj2 (analysis_step_inv a i b E))))
                 _ _ _ H).
      rewrite <- seq_shift. apply map_ext. intros i. lia.
    + apply (mapM_index_by_item analysis_step ab_task
               (fun item => prop item (lit "query"))
               (fun a i b E =>
                  proj1 (proj2 (proj2 (proj2 (proj2
                    (analysis_step_inv a i b E))))))
               _ _ _ H).
  - apply RAGAgentView_mapM in H.
    assert (Hk : map rb_key blocks = seq 0 (List.length (elements d))).
    { rewrite (mapM_index_by_index research_step rb_key (fun i => i)
                 (fun a i b E => proj1 (proj2 (research_step_inv a i b E)))
                 _ _ _ H).
      apply map_id. }
    split; [exact Hk|]. split; [rewrite Hk; apply seq_NoDup|]. split.
    + rewrite (mapM_index_by_index research_step rb_number (fun i => i + 1)
                 (fun a i b E =>
                    proj1 (proj2 (proj2 (research_step_inv a i b E))))
                 _ _ _ H).
      rewrite <- seq_shift. apply map_ext. intros i. lia.
    + apply (mapM_index_by_item research_step rb_question
               (fun item => prop item (lit "query"))
               (fun a i b E =>
                  proj1 (proj2 (proj2 (proj2 (proj2
                    (research_step_inv a i b E))))))
               _ _ _ H).
Qed.

Lemma blocks_follow_items_witness :
  let d := JArr [JObj [(lit "query", JStr (lit "q1"))]; JNum 4;
                 JObj [(lit "query", JStr (lit "q3"))]] in
  exists blocks,
    RAGAgentView d = Ok (ResearchSteps blocks)
    /\ map rb_key blocks = [0; 1; 2]
    /\ map rb_number blocks = [1; 2; 3]
    /\ map rb_question blocks
       = [JStr (lit "q1"); JUndefined; JStr (lit "q3")].
Proof.
  cbv zeta.
  destruct (blocks_follow_items
              (JArr [JObj [(lit "query", JStr (lit "q1"))]; JNum 4;
                     JObj [(lit "query", JStr (lit "q3"))]])) as (_ & H).
  eexists. split; [reflexivity|].
  destruct (H _ eq_refl) as (Hk & _ & Hn & Hq).
  repeat split; assumption.
Defined.

(** X10. In every quantitative view that is returned, a block shows the
    "No visualization generated" placeholder exactly when the item's
    [image] is falsy; an item whose [image] is a non-empty string gets an
    image whose source is the data-URI prefix followed by that string
    unchanged, with the alt text "Plot for " followed by its [section],
    which reads "Plot for undefined" when the section is absent. *)
Theorem plot_passes_image_through (d : value) (blocks : list analysis_block)
        (i : nat) (b : analysis_block) :
  PandasAgentView d = Ok (AnalysisSteps blocks) ->
  nth_error blocks i = Some b ->
  exists item,
    nth_error (elements d) i = Some item
    /\ (truthy (prop item (lit "image")) = false
        <-> ab_plot b = NoPlot (lit "No visualization generated"))
    /\ (forall s, prop item (lit "image") = JStr s -> s <> [] ->
        exists alt,
          ab_plot b = Image (lit "data:image/png;base64," ++ s) alt
          /\ (forall t, prop item (lit "section") = JStr t ->
              alt = lit "Plot for " ++ t)
          /\ (prop item (lit "section") = JUndefined ->
              alt = lit "Plot for undefined")).
Proof.
  intros Hv Hb.
  destruct (PandasAgentView_blocks_inv _ _ Hv) as (_ & Hnth).
  destruct (Hnth i b Hb) as (item & Hi & Hstep).
  destruct (analysis_step_inv _ _ _ Hstep)
    as (_ & _ & _ & _ & _ & _ & _ & Hno & Himg).
  exists item. split; [exact Hi|]. split; [split|].
  - exact Hno.
  - intros Hp. destruct (truthy (prop item (lit "image"))) eqn:Et;
      [|reflexivity].
    destruct (Himg eq_refl) as (si & ss & _ & _ & Hplot).
    rewrite Hplot in Hp. discriminate.
  - intros s Hs Hne.
    assert (Ht : truthy (prop item (lit "image")) = true)
      by (rewrite Hs; destruct s; [congruence | reflexivity]).
    destruct (Himg Ht) as (si & ss & Hsi & Hss & Hplot).
    rewrite Hs in Hsi. injection Hsi as <-.
    exists (lit "Plot for " ++ ss). split; [exact Hplot|]. split.
    + intros t Ht'. rewrite Ht' in Hss. injection Hss as <-. reflexivity.
    + intros Hu. rewrite Hu in Hss. injection Hss as <-. reflexivity.
Qed.

Lemma plot_passes_image_through_witness :
  let d := JArr [JObj [(lit "image", JStr (lit "iVBORw0KGgo="))]] in
  exists blocks b,
    PandasAgentView d = Ok (AnalysisSteps blocks)
    /\ nth_error blocks 0 = Some b
    /\ ab_plot b
       = Image (lit "data:image/png;base64,iVBORw0KGgo=")
           (lit "Plot for undefined").
Proof.
  cbv zeta. eexists. eexists. split; [reflexivity|]. split; [reflexivity|].
  destruct (plot_passes_image_through
              (JArr [JObj [(lit "image", JStr (lit "iVBORw0KGgo="))]])
              _ 0 _ eq_refl eq_refl) as (item & Hi & _ & H).
  injection Hi as <-.
  destruct (H (lit "iVBORw0KGgo=") eq_refl) as (alt & Hp & _ & Ha);
    [discriminate|].
  rewrite Hp, (Ha eq_refl). reflexivity.
Defined.

(* ===================================================================== *)
(** ** Further properties of the image pattern and the report text *)
(* ===================================================================== *)

Lemma erased_length s t : erased s t -> List.length t <= List.length s.
Proof.
  induction 1 as [|c s t _ IH|alt src s t _ _ _ IH]; simpl; try lia.
  rewrite length_app. lia.
Qed.

Lemma strip_length s : List.length (strip s) <= List.length s.
Proof. apply erased_length, strip_erased. Qed.

Lemma strip_shrinks s :
  occurs s = true -> List.length (strip s) + 5 <= List.length s.
Proof.
  induction s as [|c s IH]; [discriminate|].
  cbn [occurs]. destruct (match_here (c :: s)) as [n|] eqn:E.
  - intros _.
    destruct (match_here_sound _ _ E) as (alt & src & rest & Hs & _ & _ & Hn).
    pose proof (directive_length alt src) as Hl.
    destruct n as [|n]; [lia|].
    rewrite (strip_cons_some _ _ _ E), (skipn_directive _ _ _ _ _ _ Hs Hn).
    pose proof (strip_length rest) as Hr.
    rewrite Hs, length_app. lia.
  - intros H. rewrite (strip_cons_none _ _ E). simpl.
    specialize (IH H). lia.
Qed.

(** X11. The replacement changes a text exactly when the pattern matches
    somewhere in it, and then the text gets shorter by at least the five
    characters of the smallest directive; it never gets longer. *)
Theorem strip_changes_what_matches (s : jsstring) :
  (strip s = s <-> occurs s = false)
  /\ (occurs s = true -> List.length (strip s) + 5 <= List.length s)
  /\ List.length (strip s) <= List.length s.
Proof.
  split; [split|split].
  - intros H. destruct (occurs s) eqn:E; [|reflexivity].
    pose proof (strip_shrinks s E) as Hl. rewrite H in Hl. lia.
  - apply strip_without_occurrence.
  - apply strip_shrinks.
  - apply strip_length.
Qed.

Lemma strip_changes_what_matches_witness :
  occurs (lit "see ![](x) here") = true
  /\ List.length (strip (lit "see ![](x) here")) + 5
     <= List.length (lit "see ![](x) here")
  /\ strip (lit "plain [link](x) text") = lit "plain [link](x) text".
Proof.
  destruct (strip_changes_what_matches (lit "see ![](x) here"))
    as (_ & Hshrink & _).
  destruct (strip_changes_what_matches (lit "plain [link](x) text"))
    as ((_ & Hsame) & _).
  split; [reflexivity|]. split; [apply Hshrink; reflexivity|].
  apply Hsame. reflexivity.
Defined.

(** No matcher of the pattern reads past a line terminator. *)
Lemma accept_line_bounded :
  forall x nl y, is_line_terminator nl = true ->
    accept (x ++ nl :: y) = accept x.
Proof. reflexivity. Qed.

Lemma expect_line_bounded c (k : matcher) :
  is_line_terminator c = false ->
  (forall x nl y, is_line_terminator nl = true -> k (x ++ nl :: y) = k x) ->
  forall x nl y, is_line_terminator nl = true ->
    expect c k (x ++ nl :: y) = expect c k x.
Proof.
  intros Hc Hk x nl y Hnl. destruct x as [|d x]; simpl.
  - destruct (N.eqb_spec nl c) as [->|]; [congruence | reflexivity].
  - rewrite (Hk x nl y Hnl). reflexivity.
Qed.

Lemma lazy_dots_line_bounded (k : matcher) :
  (forall x nl y, is_line_terminator nl = true -> k (x ++ nl :: y) = k x) ->
  forall x nl y, is_line_terminator nl = true ->
    lazy_dots k (x ++ nl :: y) = lazy_dots k x.
Proof.
  intros Hk x nl y Hnl. induction x as [|d x IH].
  - pose proof (Hk [] nl y Hnl) as H0. cbn [app] in H0 |- *.
    cbn [lazy_dots]. rewrite H0, Hnl. destruct (k []); reflexivity.
  - pose proof (Hk (d :: x) nl y Hnl) as H1. cbn [app] in H1 |- *.
    cbn [lazy_dots]. rewrite H1, IH. reflexivity.
Qed.

Lemma match_here_line_bounded :
  forall x nl y, is_line_terminator nl = true ->
    match_here (x ++ nl :: y) = match_here x.
Proof.
  unfold match_here.
  repeat first
    [ apply expect_line_bounded; [reflexivity|]
    | apply lazy_dots_line_bounded
    | exact accept_line_bounded ].
Qed.

Lemma strip_line_split x nl y :
  is_line_terminator nl = true ->
  strip (x ++ nl :: y) = strip x ++ nl :: strip y.
Proof.
  intros Hnl. remember (List.length x) as n eqn:Hn. revert x Hn.
  induction n as [n IH] using lt_wf_ind. intros x Hn.
  destruct x as [|c x].
  - cbn [app]. rewrite strip_cons_none; [reflexivity|].
    exact (match_here_line_bounded [] nl y Hnl).
  - pose proof (match_here_line_bounded (c :: x) nl y Hnl) as Hm.
    cbn [app] in Hm |- *.
    destruct (match_here (c :: x)) as [m|] eqn:E.
    + destruct (match_here_sound _ _ E)
        as (alt & src & rest & Hs & _ & _ & Hlen).
      pose proof (directive_length alt src) as Hl.
      destruct m as [|m]; [lia|].
      rewrite (strip_cons_some _ _ _ Hm), (strip_cons_some _ _ _ E).
      pose proof (skipn_directive _ _ _ _ _ _ Hs Hlen) as Hrest.
      assert (Hx : x = firstn m x ++ rest)
        by (rewrite <- Hrest; symmetry; apply firstn_skipn).
      assert (Hm' : m <= List.length x).
      { pose proof (f_equal (@List.length _) Hs) as Hc.
        rewrite length_app in Hc. cbn [List.length] in Hc. lia. }
      rewrite skipn_app, Hrest.
      replace (m - List.length x) with 0 by lia. cbn [skipn].
      apply (IH (List.length rest)); [|reflexivity].
      subst n. pose proof (f_equal (@List.length _) Hs) as Hc.
      rewrite length_app in Hc. cbn [List.length] in Hc |- *. lia.
    + rewrite (strip_cons_none _ _ Hm), (strip_cons_none _ _ E).
      cbn [app]. f_equal.
      apply (IH (List.length x)); [subst n; simpl; lia | reflexivity].
Qed.

Lemma erased_line_terminators s t :
  erased s t -> filter is_line_terminator t = filter is_line_terminator s.
Proof.
  induction 1 as [|c s t _ IH|alt src s t Ha Hs _ IH].
  - reflexivity.
  - simpl. rewrite IH. reflexivity.
  - rewrite directive_app. cbn [filter]. change (is_line_terminator (ch "!")) with false.
    change (is_line_terminator (ch "[")) with false. cbn iota.
    rewrite filter_app. cbn [filter].
    change (is_line_terminator (ch "]")) with false.
    change (is_line_terminator (ch "(")) with false. cbn iota.
    rewrite filter_app. cbn [filter].
    change (is_line_terminator (ch ")")) with false. cbn iota.
    assert (Hnone : forall l, one_line l = true ->
                      filter is_line_terminator l = []).
    { clear. induction l as [|d l IHl]; [reflexivity|].
      simpl. intros H. apply andb_prop in H as [Hd Hl].
      apply negb_true_iff in Hd. rewrite Hd. auto. }
    rewrite (Hnone _ Ha), (Hnone _ Hs). exact IH.
Qed.

(** X12. The replacement works line by line: a match never spans a line
    terminator, so stripping a text is stripping each side of any line
    terminator in it, and the line terminators of the text all stay, in
    order. *)
Theorem strip_line_by_line (x y : jsstring) (nl : code_unit) :
  is_line_terminator nl = true ->
  strip (x ++ nl :: y) = strip x ++ nl :: strip y
  /\ filter is_line_terminator (strip (x ++ nl :: y))
     = filter is_line_terminator (x ++ nl :: y).
Proof.
  intros Hnl. split; [apply strip_line_split, Hnl|].
  apply erased_line_terminators, strip_erased.
Qed.

Lemma strip_line_by_line_witness :
  is_line_terminator 10%N = true
  /\ strip (lit "![a](b" ++ 10%N :: lit ") and ![c](d)")
     = lit "![a](b" ++ 10%N :: lit ") and ".
Proof.
  split; [reflexivity|].
  etransitivity;
    [exact (proj1 (strip_line_by_line (lit "![a](b") (lit ") and ![c](d)")
                     10%N eq_refl))
    | reflexivity].
Defined.

Lemma synthesis_of_body d body :
  to_string (or_else (opt_get d (lit "markdown_content")) (JStr pending))
  = Ok body ->
  SynthesisView d = Ok {| sv_markdown := reportHeader ++ strip body |}.
Proof.
  unfold SynthesisView, fullMarkdown, append_text.
  intros ->. cbn [bind]. rewrite strip_header. reflexivity.
Qed.

Lemma strip_without_bang s : lacks (ch "!") s = true -> strip s = s.
Proof.
  intros H. rewrite <- (app_nil_r s) at 1.
  rewrite strip_keeps_prefix; [apply app_nil_r|].
  rewrite opens_image_lacks by exact H. reflexivity.
Qed.

Lemma digits_lack_bang u : lacks (ch "!") (digits u) = true.
Proof. induction u; simpl; auto. Qed.

Lemma of_Z_lacks_bang z : lacks (ch "!") (of_Z z) = true.
Proof.
  unfold of_Z. destruct (Z.to_int z); simpl; apply digits_lack_bang.
Qed.

(** X13. Whatever the synthesis input, [SynthesisView] returns exactly
    when the content (the placeholder when [markdown_content] is falsy)
    can be converted to a string, and raises the conversion's TypeError
    otherwise. What it hands over always starts with the header,
    unaltered: the header's own line breaks and parentheses never take
    part in a match. After the header comes the stripped text of the
    content, for a content that is a string or whose numbers are safe
    integers. *)
Theorem SynthesisView_keeps_header (d : value) :
  let content :=
    or_else (opt_get d (lit "markdown_content")) (JStr pending) in
  (forall body, exact_text content = true -> to_string content = Ok body ->
   SynthesisView d = Ok {| sv_markdown := reportHeader ++ strip body |})
  /\ (printable content = true -> exists v, SynthesisView d = Ok v)
  /\ (printable content = false -> SynthesisView d = Throw cannot_convert)
  /\ (forall v, SynthesisView d = Ok v ->
      firstn (List.length reportHeader) (sv_markdown v) = reportHeader
      /\ List.length reportHeader <= List.length (sv_markdown v)).
Proof.
  cbv zeta.
  pose proof (synthesis_of_body d) as H1.
  split; [intros body _; apply H1|]. split; [|split].
  - unfold printable.
    destruct (to_string (or_else (opt_get d (lit "markdown_content"))
                           (JStr pending))) as [body|e] eqn:E;
      [|discriminate].
    intros _. rewrite (H1 body eq_refl). eauto.
  - unfold SynthesisView, fullMarkdown, append_text.
    intros H. rewrite (printable_throws _ H). reflexivity.
  - intros v Hv. split; [|
      destruct (to_string (or_else (opt_get d (lit "markdown_content"))
                             (JStr pending))) as [body|e] eqn:E;
      [ rewrite (H1 body eq_refl) in Hv;
        pose proof (f_equal (fun r => match r with
                                      | Ok x => List.length (sv_markdown x)
                                      | Throw _ => 0
                                      end) Hv) as Hx;
        change (List.length (reportHeader ++ strip body)
                = List.length (sv_markdown v)) in Hx;
        rewrite <- Hx, length_app; lia
      | unfold SynthesisView, fullMarkdown, append_text in Hv;
        rewrite E in Hv; discriminate ]].
    destruct (to_string (or_else (opt_get d (lit "markdown_content"))
                           (JStr pending))) as [body|e] eqn:E.
    + rewrite (H1 body eq_refl) in Hv.
      pose proof (f_equal (fun r => match r with
                                    | Ok x => sv_markdown x
                                    | Throw _ => []
                                    end) Hv) as Hx.
      change (reportHeader ++ strip body = sv_markdown v) in Hx.
      rewrite <- Hx.
      rewrite firstn_app, Nat.sub_diag, firstn_all.
      cbn [firstn]. apply app_nil_r.
    + unfold SynthesisView, fullMarkdown, append_text in Hv.
      rewrite E in Hv. discriminate.
Qed.

Lemma SynthesisView_keeps_header_witness :
  to_string (or_else (opt_get (JObj [(lit "markdown_content", JNum 42)])
                        (lit "markdown_content")) (JStr pending))
  = Ok (lit "42")
  /\ SynthesisView (JObj [(lit "markdown_content", JNum 42)])
     = Ok {| sv_markdown := reportHeader ++ lit "42" |}.
Proof.
  split; [reflexivity|].
  destruct (SynthesisView_keeps_header
              (JObj [(lit "markdown_content", JNum 42)])) as (H & _).
  rewrite (H (lit "42") eq_refl eq_refl). reflexivity.
Defined.

(* ===================================================================== *)
(** ** Further properties of the ingestion view and the layout *)
(* ===================================================================== *)

Lemma mapM_column_chip_inv l chips :
  mapM column_chip l = Ok chips ->
  map chip_text chips = l
  /\ Forall (fun c => to_string (chip_text c) = Ok (chip_key c)) chips.
Proof.
  revert chips. induction l as [|c l IH]; intros chips; simpl.
  - intros H; injection H as <-. split; constructor.
  - unfold column_chip at 1.
    destruct (to_string c) as [k|e] eqn:Ek; cbn [bind]; [|discriminate].
    destruct (mapM column_chip l) as [cs|e]; cbn [bind]; [|discriminate].
    intros H; injection H as <-. destruct (IH cs eq_refl) as (Ht & Hk).
    split; [simpl; rewrite Ht; reflexivity|].
    constructor; [exact Ek | exact Hk].
Qed.

Lemma mapM_column_chip_returns l :
  forallb printable l = true <-> exists chips, mapM column_chip l = Ok chips.
Proof.
  induction l as [|c l IH]; simpl.
  - split; eauto.
  - unfold column_chip at 1. unfold printable at 1.
    destruct (to_string c) as [k|e]; cbn [bind andb].
    + rewrite IH. split.
      * intros (cs & ->). cbn [bind]. eauto.
      * destruct (mapM column_chip l) as [cs|e]; cbn [bind]; [eauto|].
        intros (x & Hx). discriminate.
    + split; [discriminate | intros (x & Hx); discriminate].
Qed.

(** X7. With [columns] an array and a row count that can be shown,
    [IngestionView] returns exactly when the first six entries can be
    converted to strings (for their keys): entries from the seventh on are
    never inspected. When it returns, it shows min(6, n) chips, the first
    entries in order; a string entry is its own key, and so is the text of
    any entry whose numbers are safe integers. With a [columns] that is
    neither absent nor an array it raises a TypeError. *)
Theorem ingestion_reads_six_columns (loc : Z -> jsstring) (d : value) :
  nullish (opt_get d (lit "row_count")) = true
  \/ (exists s, toLocaleString loc (opt_get d (lit "row_count")) = Ok s) ->
  (forall items, opt_get d (lit "columns") = JArr items ->
     ((exists iv, IngestionView loc d = Ok iv)
      <-> forallb printable (firstn 6 items) = true)
     /\ (forall iv, IngestionView loc d = Ok iv ->
         exists chips,
           iv_columns iv = Some chips
           /\ List.length chips = Nat.min 6 (List.length items)
           /\ map chip_text chips = firstn 6 items
           /\ Forall (fun c =>
                        (forall s, chip_text c = JStr s -> chip_key c = s)
                        /\ (exact_text (chip_text c) = true ->
                            to_string (chip_text c) = Ok (chip_key c)))
                chips))
  /\ (nullish (opt_get d (lit "columns")) = false ->
      isArray (opt_get d (lit "columns")) = false ->
      exists m, IngestionView loc d = Throw (TypeError m)).
Proof.
  intros Hrc. unfold IngestionView.
  set (rc := opt_get d (lit "row_count")) in *.
  assert (Htotal : exists total,
             (if nullish rc then Ok JUndefined
              else s <- toLocaleString loc rc ;; Ok (JStr s)) = Ok total).
  { destruct (nullish rc) eqn:En; [eauto|].
    destruct Hrc as [Hrc | (s & ->)]; [discriminate|]. cbn [bind]. eauto. }
  destruct Htotal as (total & ->). cbn [bind]. split.
  - intros items ->. split; [split|].
    + intros (iv & Hiv).
      apply mapM_column_chip_returns.
      destruct (mapM column_chip (firstn 6 items)) as [chips|e];
        [eauto | discriminate].
    + intros H. apply mapM_column_chip_returns in H as (chips & ->).
      cbn [bind]. eauto.
    + intros iv.
      destruct (mapM column_chip (firstn 6 items)) as [chips|e] eqn:Em;
        cbn [bind]; [|discriminate].
      intros H; injection H as <-. cbn [iv_columns].
      destruct (mapM_column_chip_inv _ _ Em) as (Ht & Hk).
      exists chips. split; [reflexivity|]. split; [|split; [assumption|]].
      * rewrite <- (length_map chip_text), Ht. apply length_firstn.
      * eapply Forall_impl; [|exact Hk]. cbv beta. intros c Hc. split.
        -- intros s Hs. rewrite Hs in Hc. simpl in Hc. congruence.
        -- intros _. exact Hc.
  - destruct (opt_get d (lit "columns")); try discriminate; intros _ _;
      eexists; reflexivity.
Qed.

Lemma ingestion_reads_six_columns_witness :
  let unprintable := JObj [(lit "toString", JNull)] in
  let d :=
    JObj [(lit "columns",
           JArr [JNum 1; JNum 2; JNum 3; JNum 4; JNum 5; JNum 6; unprintable])] in
  nullish (opt_get d (lit "row_count")) = true
  /\ exists iv chips,
       IngestionView of_Z d = Ok iv
       /\ iv_columns iv = Some chips
       /\ List.length chips = 6
       /\ map chip_key chips
          = [lit "1"; lit "2"; lit "3"; lit "4"; lit "5"; lit "6"].
Proof.
  cbv zeta. split; [reflexivity|].
  destruct (ingestion_reads_six_columns of_Z
    (JObj [(lit "columns",
            JArr [JNum 1; JNum 2; JNum 3; JNum 4; JNum 5; JNum 6;
                  JObj [(lit "toString", JNull)]])])
    (or_introl eq_refl)) as (H & _).
  destruct (H _ eq_refl) as ((_ & Hret) & Hchips).
  destruct (Hret eq_refl) as (iv & Hiv).
  destruct (Hchips iv Hiv) as (chips & Hc & Hl & Ht & Hk).
  exists iv, chips. split; [exact Hiv|]. split; [exact Hc|].
  split; [exact Hl|].
  clear H Hret Hchips Hiv Hc. simpl in Ht.
  assert (K : forall c n,
             chip_text c = JNum n -> safe_integer n = true ->
             (forall s, chip_text c = JStr s -> chip_key c = s)
             /\ (exact_text (chip_text c) = true ->
                 to_string (chip_text c) = Ok (chip_key c)) ->
             chip_key c = of_Z n).
  { intros c n E Hs [_ Hx]. rewrite E in Hx. specialize (Hx Hs).
    simpl in Hx. congruence. }
  destruct chips as [|c1 [|c2 [|c3 [|c4 [|c5 [|c6 [|c7 rest]]]]]]];
    try discriminate Hl.
  injection Ht as E1 E2 E3 E4 E5 E6.
  apply Forall_cons_iff in Hk as [K1 Hk].
  apply Forall_cons_iff in Hk as [K2 Hk].
  apply Forall_cons_iff in Hk as [K3 Hk].
  apply Forall_cons_iff in Hk as [K4 Hk].
  apply Forall_cons_iff in Hk as [K5 Hk].
  apply Forall_cons_iff in Hk as [K6 _].
  cbn [map].
  rewrite (K _ _ E1 eq_refl K1), (K _ _ E2 eq_refl K2), (K _ _ E3 eq_refl K3),
    (K _ _ E4 eq_refl K4), (K _ _ E5 eq_refl K5), (K _ _ E6 eq_refl K6).
  reflexivity.
Defined.

Lemma counter_of_items sgt is_tab data agent :
  nullish (opt_get data agent) = true \/ isArray (opt_get data agent) = true ->
  counter sgt is_tab data agent
  = Ok (count_badge is_tab (elements (opt_get data agent))).
Proof.
  unfold counter, count_badge. destruct is_tab.
  - intros [H | H].
    + destruct (opt_get data agent); try discriminate; reflexivity.
    + destruct (opt_get data agent) as [| | | | |items|]; try discriminate.
      destruct items as [|item items]; [reflexivity|].
      cbn [elements opt_get nullish prop].
      change (JsString.eqb (lit "length") (lit "length")) with true.
      cbn [gt bind].
      destruct (Z.ltb_spec 0 (Z.of_nat (List.length (item :: items))))
        as [_|Hl]; [reflexivity|].
      simpl in Hl. lia.
  - intros _. destruct (elements (opt_get data agent)); reflexivity.
Qed.







(** X15. The tab labels of the ingestion and the report tab never carry
    a counter, whatever the data. When each step field is absent or an
    array, no label raises, and a counter appears only on the tab of its
    own agent and only for a non-empty array, showing its length. *)
Theorem tab_counters_of_sequences (sgt : jsstring -> Z -> bool) (t : tab)
        (data : value) :
  (t = ingestion \/ t = synthesis ->
   tab_counters sgt t data = Ok (Hidden (JBool false), Hidden (JBool false)))
  /\ (nullish (opt_get data (lit "pandas_agent")) = true
      \/ isArray (opt_get data (lit "pandas_agent")) = true ->
      nullish (opt_get data (lit "rag_agent")) = true
      \/ isArray (opt_get data (lit "rag_agent")) = true ->
      tab_counters sgt t data
      = Ok (count_badge (tab_eqb t pandas)
              (elements (opt_get data (lit "pandas_agent"))),
            count_badge (tab_eqb t rag)
              (elements (opt_get data (lit "rag_agent"))))).
Proof.
  split.
  - intros [-> | ->]; reflexivity.
  - intros Hp Hr. unfold tab_counters.
    rewrite (counter_of_items sgt _ data _ Hp). cbn [bind].
    rewrite (counter_of_items sgt _ data _ Hr). reflexivity.
Qed.

Lemma tab_counters_of_sequences_witness :
  let data := JObj [(lit "pandas_agent", JArr [JObj []; JObj []])] in
  tab_counters (fun _ _ => false) pandas data
  = Ok (Shown (JNum 2), Hidden (JBool false))
  /\ tab_counters (fun _ _ => false) rag data
     = Ok (Hidden (JBool false), Hidden (JBool false)).
Proof.
  cbv zeta. split.
  - exact (proj2 (tab_counters_of_sequences (fun _ _ => false) pandas
                    (JObj [(lit "pandas_agent", JArr [JObj []; JObj []])]))
             (or_intror eq_refl) (or_introl eq_refl)).
  - exact (proj2 (tab_counters_of_sequences (fun _ _ => false) rag
                    (JObj [(lit "pandas_agent", JArr [JObj []; JObj []])]))
             (or_intror eq_refl) (or_introl eq_refl)).
Defined.

(* ===================================================================== *)
(** ** The earlier revision against the current one *)
(* ===================================================================== *)

(** X16. For a [markdown_content] that is a non-empty string, the current
    [SynthesisView] hands over the header followed by exactly what the
    earlier revision handed over. They part on other contents: absent
    content gave nothing before and gives the placeholder now, and a
    number made the earlier view raise where the current one returns,
    printing it (as its decimal numeral, for a safe integer other than
    zero). *)
Theorem synthesis_revisions_agree_on_text (d : value) :
  (forall s, opt_get d (lit "markdown_content") = JStr s -> s <> [] ->
   exists text,
     Legacy.SynthesisView d = Ok (JStr text)
     /\ SynthesisView d = Ok {| sv_markdown := reportHeader ++ text |})
  /\ (nullish (opt_get d (lit "markdown_content")) = true ->
      Legacy.SynthesisView d = Ok JUndefined
      /\ SynthesisView d = Ok synthesis_pending)
  /\ (forall z, opt_get d (lit "markdown_content") = JNum z ->
      Legacy.SynthesisView d
      = Throw (TypeError (lit "data?.markdown_content?.replace is not a function"))
      /\ (exists v, SynthesisView d = Ok v)
      /\ (z <> 0%Z -> safe_integer z = true ->
          SynthesisView d = Ok {| sv_markdown := reportHeader ++ of_Z z |})).
Proof.
  split; [|split].
  - intros s Hs Hne. exists (strip s). split.
    + unfold Legacy.SynthesisView. rewrite Hs. reflexivity.
    + apply synthesis_of_text; assumption.
  - intros Hn. split.
    + unfold Legacy.SynthesisView.
      destruct (opt_get d (lit "markdown_content")); try discriminate;
        reflexivity.
    + apply synthesis_of_nothing.
      destruct (opt_get d (lit "markdown_content")); try discriminate;
        reflexivity.
  - intros z Hz. split; [|split].
    + unfold Legacy.SynthesisView. rewrite Hz. reflexivity.
    + destruct (Z.eqb_spec z 0) as [E|E].
      * rewrite synthesis_of_nothing; [eauto|].
        rewrite Hz, E. reflexivity.
      * rewrite (synthesis_of_body d (of_Z z)); [eauto|].
        rewrite Hz. unfold or_else. cbn [truthy].
        destruct (Z.eqb_spec z 0); [contradiction|]. reflexivity.
    + intros Hne _. rewrite (synthesis_of_body d (of_Z z)).
      * rewrite (strip_without_bang _ (of_Z_lacks_bang z)). reflexivity.
      * rewrite Hz. unfold or_else. cbn [truthy].
        destruct (Z.eqb_spec z 0); [contradiction|]. reflexivity.
Qed.

Lemma synthesis_revisions_agree_on_text_witness :
  let d := JObj [(lit "markdown_content", JStr (lit "Q1 ![c](c.png) up"))] in
  Legacy.SynthesisView d = Ok (JStr (lit "Q1  up"))
  /\ SynthesisView d = Ok {| sv_markdown := reportHeader ++ lit "Q1  up" |}.
Proof.
  cbv zeta.
  destruct (synthesis_revisions_agree_on_text
              (JObj [(lit "markdown_content", JStr (lit "Q1 ![c](c.png) up"))]))
    as (H & _).
  destruct (H (lit "Q1 ![c](c.png) up") eq_refl) as (text & Hold & Hnew);
    [discriminate|].
  assert (Ht : text = lit "Q1  up").
  { assert (E : Ok (JStr text) = Ok (JStr (lit "Q1  up")))
      by (rewrite <- Hold; reflexivity).
    congruence. }
  rewrite Ht in Hold, Hnew. split; assumption.
Defined.

(** X17. The two revisions of [handleGenerate] set the same error and
    both switch the spinner off, for every earlier state and outcome. On
    success both keep the parsed body; the earlier revision returns to the
    ingestion tab, the current one jumps to the report. On failure
    neither moves the tab; the earlier revision keeps the earlier result
    next to the error, whereas the current revision has cleared it. The
    earlier revision sends no body. *)
Theorem handler_revisions_compared (st : state) (o : settled) :
  let old := Legacy.handleGenerate st o in
  let new := handleGenerate st o in
  error old = error new
  /\ loading old = false
  /\ loading new = false
  /\ body (snd (Legacy.start st)) = JUndefined
  /\ (forall r, awaited o = Ok r ->
      data old = r /\ data new = r
      /\ activeTab old = ingestion /\ activeTab new = synthesis
      /\ error old = JNull)
  /\ (forall e, awaited o = Throw e ->
      data old = data st /\ data new = JNull
      /\ activeTab old = activeTab st /\ activeTab new = activeTab st
      /\ error old = JStr (message e)).
Proof.
  cbv zeta.
  unfold Legacy.handleGenerate, Legacy.resolve, handleGenerate, resolve.
  destruct (awaited o) as [r|e]; cbn.
  - do 4 (split; [reflexivity|]). split; [|discriminate].
    intros r' Hr; injection Hr as <-. repeat split.
  - do 4 (split; [reflexivity|]). split; [discriminate|].
    intros e' He; injection He as <-. repeat split.
Qed.

Lemma handler_revisions_compared_witness :
  let st := setData (JObj [(lit "rag_agent", JArr [])]) (setActiveTab rag initial) in
  let o := Parsed (JObj [(lit "error", JStr (lit "timeout"))]) in
  awaited o = Throw (Error (lit "timeout"))
  /\ data (Legacy.handleGenerate st o) = JObj [(lit "rag_agent", JArr [])]
  /\ error (Legacy.handleGenerate st o) = JStr (lit "timeout")
  /\ activeTab (Legacy.handleGenerate st o) = rag
  /\ data (handleGenerate st o) = JNull
  /\ error (handleGenerate st o) = JStr (lit "timeout").
Proof.
  cbv zeta.
  destruct (handler_revisions_compared
              (setData (JObj [(lit "rag_agent", JArr [])])
                 (setActiveTab rag initial))
              (Parsed (JObj [(lit "error", JStr (lit "timeout"))])))
    as (Herr & _ & _ & _ & _ & H).
  destruct (H (Error (lit "timeout")) eq_refl)
    as (Hold & Hnew & Htab & _ & Hmsg).
  split; [reflexivity|]. split; [exact Hold|]. split; [exact Hmsg|].
  split; [exact Htab|]. split; [exact Hnew|].
  rewrite <- Herr. exact Hmsg.
Defined.
